(** * Red Sevilla Sin Gluten scraper: a shallow embedding of [scraper.py]

    The development follows the source file top to bottom: Python strings
    and the few [str] methods the scraper calls, the BeautifulSoup tree and
    its queries, the page fetcher, the listing extractor, the pagination
    loop, the CSV writer and [main]. *)

From Stdlib Require Import List ZArith NArith Bool Lia String Ascii.
From Stdlib Require Import DecimalString.
From Stdlib Require DecimalFacts DecimalPos DecimalZ.
Import ListNotations.

Local Open Scope Z_scope.
Set Warnings "-register-all".

(** ** Python strings

    A Python [str] is a sequence of Unicode code points.  [str.strip] with
    no argument removes the characters for which [str.isspace] holds, which
    goes beyond ASCII (the no-break space of [&nbsp;] is one of them), so
    characters are code points rather than bytes. *)

Definition char := N.
Definition str := list char.

Definition py (s : string) : str :=
  map N_of_ascii (list_ascii_of_string s).

(** [str.isspace] on one character: the code points CPython's
    [Py_UNICODE_ISSPACE] accepts. *)
Definition isspace (c : char) : bool :=
  (((9 <=? c) && (c <=? 13)) ||
   ((28 <=? c) && (c <=? 32)) ||
   (c =? 133) || (c =? 160) || (c =? 5760) ||
   ((8192 <=? c) && (c <=? 8202)) ||
   (c =? 8232) || (c =? 8233) || (c =? 8239) || (c =? 8287) ||
   (c =? 12288))%N.

Fixpoint lstrip (s : str) : str :=
  match s with
  | [] => []
  | c :: r => if isspace c then lstrip r else s
  end.

Definition rstrip (s : str) : str := rev (lstrip (rev s)).

Definition strip (s : str) : str := rstrip (lstrip s).

(** [s.split(sep)] for a one-character separator: the result is never the
    empty list, and an empty [s] gives one empty piece. *)
Fixpoint split (sep : char) (s : str) : list str :=
  match s with
  | [] => [[]]
  | c :: r =>
      if (c =? sep)%N then [] :: split sep r
      else match split sep r with
           | [] => [[c]]
           | w :: ws => (c :: w) :: ws
           end
  end.

Fixpoint str_eqb (a b : str) : bool :=
  match a, b with
  | [], [] => true
  | x :: a', y :: b' => (x =? y)%N && str_eqb a' b'
  | _, _ => false
  end.

(** [x in l] for a list of strings. *)
Definition str_in (x : str) (l : list str) : bool := existsb (str_eqb x) l.

(** Truthiness of a string: [if s:] holds when [s] is not empty. *)
Definition truthy (s : str) : bool :=
  match s with [] => false | _ :: _ => true end.

(** [str(n)] for an [int]. *)
Definition str_of_int (n : Z) : str := py (NilZero.string_of_int (Z.to_int n)).

Definition newline : char := 10%N.

(** ** The BeautifulSoup tree

    A parsed document is a tree of tags and text.  Of a tag's attributes the
    scraper reads only [class], which the HTML parser stores as a list of
    names; [get('class', [])] makes a missing attribute the empty list. *)

Inductive node : Type :=
| NavigableString (s : str)
| Tag (name : str) (class : list str) (contents : list node).

Definition name_of (n : node) : option str :=
  match n with
  | NavigableString _ => None
  | Tag nm _ _ => Some nm
  end.

Definition get_class (n : node) : list str :=
  match n with
  | NavigableString _ => []
  | Tag _ cl _ => cl
  end.

(** [n.text]: the text below [n], concatenated in document order. *)
Fixpoint text (n : node) : str :=
  match n with
  | NavigableString s => s
  | Tag _ _ cs =>
      (fix go (l : list node) : str :=
         match l with
         | [] => []
         | c :: r => text c ++ go r
         end) cs
  end.

(** An element handed out by a query remembers where it sits: [parent] is
    the tag whose [contents] hold it. *)
Record element : Type := mkElement { parent : node; self : node }.

(** Everything strictly below [n], in document order. *)
Fixpoint descendants (n : node) : list element :=
  match n with
  | NavigableString _ => []
  | Tag _ _ cs =>
      (fix go (l : list node) : list element :=
         match l with
         | [] => []
         | c :: r => mkElement n c :: descendants c ++ go r
         end) cs
  end.

Definition is_tag_named (names : list str) (e : element) : bool :=
  match name_of (self e) with
  | None => false
  | Some nm => str_in nm names
  end.

(** [n.find_all(names)] and [n.find(names)]: the second is the first hit of
    the first, or [None]. *)
Definition find_all (names : list str) (n : node) : list element :=
  filter (is_tag_named names) (descendants n).

Definition find (names : list str) (n : node) : option element :=
  hd_error (find_all names n).

(** ** [extract_business_from_article] *)

Record Business : Type := mkBusiness { Name : str; Address : str }.

Definition heading_tags : list str := [py "h2"; py "h3"].
Definition link_tag : list str := [py "a"].
Definition paragraph_tag : list str := [py "p"].

(** The test on [p.parent] in the address loop. *)
Definition in_expected_div (p : element) : bool :=
  let cl := get_class (parent p) in
  str_in (py "textof") cl ||
  str_in (py "entry-content") cl ||
  str_in (py "entry-summary") cl.

(** The [for p in p_elements] loop; the result is [address] at loop exit,
    which starts as the empty string and is set on the way to [break]. *)
Fixpoint address_loop (p_elements : list element) : str :=
  match p_elements with
  | [] => []
  | p :: rest =>
      if in_expected_div p then
        let text_ := strip (text (self p)) in
        if truthy text_ then
          let first_line := strip (hd [] (split newline text_)) in
          if truthy first_line then first_line
          else address_loop rest
        else address_loop rest
      else address_loop rest
  end.

Definition business_name_of (title_element : element) : str :=
  match find link_tag (self title_element) with
  | Some title_link => strip (text (self title_link))
  | None => strip (text (self title_element))
  end.

Definition extract_business_from_article (article : node) : option Business :=
  match find heading_tags article with
  | None => None
  | Some title_element =>
      let business_name := business_name_of title_element in
      if negb (truthy business_name) then None
      else
        let address := address_loop (find_all paragraph_tag article) in
        Some (mkBusiness business_name address)
  end.

(** ** Effects

    The scraper prints, sleeps, talks to the network and writes one file.
    A run threads a [World]: the effects so far, oldest first, and the files
    on disk as lists of CSV rows.  The environment answers what the program
    cannot decide: what a GET returns and whether a file can be opened for
    writing. *)

Inductive line : Type :=
| Fetching (page_number : Z) (url : str)
| ErrorFetching (page_number : Z)
| NoContentFound (page_number : Z)
| NoMoreArticles (max_empty_pages : Z)
| Found (name address : str)
| NoBusinessesToSave
| Saved (count : Z) (filename : str)
| Starting
| TotalScraped (count : Z)
| FirstFive
| PreviewName (i : Z) (name : str)
| PreviewAddress (address : str).

Inductive event : Type :=
| Print (l : line)
| Get (url : str)
| Sleep (seconds : Z)
| Open (filename : str).

Definition row := list str.

Record World : Type := mkWorld {
  events : list event;
  files : str -> option (list row)
}.

(** The scraper does one thing with the body of a response: it hands it to
    [BeautifulSoup(..., 'html.parser')], which builds a tree or raises
    [ParserRejectedMarkup].  A body is what the parser makes of it. *)
Inductive body : Type :=
| Markup (soup : node)
| RejectedMarkup.

Record Response : Type := mkResponse {
  status_code : Z;
  content : body
}.

(** [requests_get url = None] stands for a transport failure, which
    [requests] raises as a [RequestException]. *)
Record Env : Type := mkEnv {
  requests_get : str -> option Response;
  can_open : str -> bool
}.

Inductive exn : Type := RequestException | OSError | ParserRejectedMarkup.

Inductive outcome (A : Type) : Type :=
| Return (a : A)
| Raise (e : exn).
Arguments Return {A} a.
Arguments Raise {A} e.

(** A computation may change the world, raise, or (the [while True] loop)
    fail to finish within the fuel it was given: [None]. *)
Definition M (A : Type) : Type := World -> option (outcome A * World).

Definition ret {A} (a : A) : M A := fun w => Some (Return a, w).

Definition raise {A} (e : exn) : M A := fun w => Some (Raise e, w).

Definition bind {A B} (m : M A) (f : A -> M B) : M B :=
  fun w =>
    match m w with
    | None => None
    | Some (Return a, w') => f a w'
    | Some (Raise e, w') => Some (Raise e, w')
    end.

Notation "x <- m ;; k" := (bind m (fun x => k))
  (at level 61, m at next level, right associativity).
Notation "m ;; k" := (bind m (fun _ => k))
  (at level 61, right associativity).

(** [try: m  except requests.RequestException: h]. *)
Definition try_except_request {A} (m h : M A) : M A :=
  fun w =>
    match m w with
    | Some (Raise RequestException, w') => h w'
    | r => r
    end.

Definition emit (e : event) : M unit :=
  fun w => Some (Return tt, mkWorld (events w ++ [e]) (files w)).

(** Standard output is taken to accept every line.  On a stream whose
    encoding lacks a character of the line [print] would raise
    [UnicodeEncodeError]; no handler of the program catches it. *)
Definition print (l : line) : M unit := emit (Print l).

Definition sleep (seconds : Z) : M unit := emit (Sleep seconds).

(** ** [get_page_content] *)

Definition base_url : str :=
  py "https://redsevillasingluten.org/category/establecimientos-de-la-red/".

Definition page_url (page_number : Z) : str :=
  if page_number =? 1 then base_url
  else base_url ++ py "page/" ++ str_of_int page_number ++ py "/".

Definition requests_get_m (env : Env) (url : str) : M Response :=
  emit (Get url) ;;
  match requests_get env url with
  | Some response => ret response
  | None => raise RequestException
  end.

(** [response.raise_for_status()]: an [HTTPError], which is a
    [RequestException], for the 4xx and 5xx codes. *)
Definition raise_for_status (response : Response) : M unit :=
  if (400 <=? status_code response) && (status_code response <? 600)
  then raise RequestException
  else ret tt.

(** [BeautifulSoup(response.content, 'html.parser')]. *)
Definition BeautifulSoup (b : body) : M node :=
  match b with
  | Markup soup => ret soup
  | RejectedMarkup => raise ParserRejectedMarkup
  end.

Definition get_page_content (env : Env) (page_number : Z) : M (option node) :=
  let url := page_url page_number in
  print (Fetching page_number url) ;;
  try_except_request
    (response <- requests_get_m env url ;;
     if status_code response =? 404 then ret None
     else
       raise_for_status response ;;
       soup <- BeautifulSoup (content response) ;;
       ret (Some soup))
    (print (ErrorFetching page_number) ;;
     ret None).

(** ** [scrape_all_pages] *)

Record RunState : Type := mkRunState {
  page : Z;
  businesses : list Business;
  empty_page_count : Z
}.

Definition max_empty_pages : Z := 2.

Definition article_tag : list str := [py "article"].

Definition shown_address (b : Business) : str :=
  if truthy (Address b) then Address b else py "No address".

(** The [for article in articles] loop. *)
Fixpoint for_articles (articles : list element) (acc : list Business)
  : M (list Business) :=
  match articles with
  | [] => ret acc
  | article :: rest =>
      match extract_business_from_article (self article) with
      | Some business_data =>
          print (Found (Name business_data) (shown_address business_data)) ;;
          for_articles rest (acc ++ [business_data])
      | None => for_articles rest acc
      end
  end.

Inductive flow : Type := Break | Next.

(** One turn of the [while True] loop. *)
Definition loop_body (env : Env) (s : RunState) : M (flow * RunState) :=
  soup <- get_page_content env (page s) ;;
  match soup with
  | None =>
      print (NoContentFound (page s)) ;;
      ret (Break, s)
  | Some soup =>
      match find_all article_tag soup with
      | [] =>
          let count := empty_page_count s + 1 in
          if count >=? max_empty_pages then
            print (NoMoreArticles max_empty_pages) ;;
            ret (Break, mkRunState (page s) (businesses s) count)
          else
            sleep 2 ;;
            ret (Next, mkRunState (page s + 1) (businesses s) count)
      | articles =>
          found <- for_articles articles (businesses s) ;;
          sleep 2 ;;
          ret (Next, mkRunState (page s + 1) found 0)
      end
  end.

Fixpoint while_true (fuel : nat) (env : Env) (s : RunState) : M RunState :=
  match fuel with
  | O => fun _ => None
  | S fuel' =>
      r <- loop_body env s ;;
      match r with
      | (Break, s') => ret s'
      | (Next, s') => while_true fuel' env s'
      end
  end.

Definition initial_state : RunState := mkRunState 1 [] 0.

Definition scrape_all_pages (fuel : nat) (env : Env) : M (list Business) :=
  s <- while_true fuel env initial_state ;;
  ret (businesses s).

(** ** [save_to_csv] *)

Definition fieldnames : list str := [py "Name"; py "Address"].

(** [business.get(key, '')], as [csv.DictWriter] reads a row dictionary. *)
Definition get_field (b : Business) (key : str) : str :=
  if str_eqb key (py "Name") then Name b
  else if str_eqb key (py "Address") then Address b
  else [].

Definition set_file (filename : str) (rows : list row) (w : World) : World :=
  mkWorld (events w)
          (fun f => if str_eqb f filename then Some rows else files w f).

(** [open(filename, 'w')]: an [OSError] when the file cannot be opened,
    otherwise the file exists and is empty. *)
Definition open_w (env : Env) (filename : str) : M unit :=
  emit (Open filename) ;;
  if can_open env filename then
    fun w => Some (Return tt, set_file filename [] w)
  else raise OSError.

Definition writerow (filename : str) (r : row) : M unit :=
  fun w =>
    let old := match files w filename with Some rows => rows | None => [] end in
    Some (Return tt, set_file filename (old ++ [r]) w).

Fixpoint write_businesses (filename : str) (bs : list Business) : M unit :=
  match bs with
  | [] => ret tt
  | business :: rest =>
      writerow filename (map (get_field business) fieldnames) ;;
      write_businesses filename rest
  end.

Definition save_to_csv (env : Env) (bs : list Business) (filename : str)
  : M unit :=
  match bs with
  | [] => print NoBusinessesToSave
  | _ :: _ =>
      open_w env filename ;;
      writerow filename fieldnames ;;
      write_businesses filename bs ;;
      print (Saved (Z.of_nat (List.length bs)) filename)
  end.

Definition default_filename : str := py "businesses.csv".

(** ** [main] *)

Fixpoint preview (i : Z) (bs : list Business) : M unit :=
  match bs with
  | [] => ret tt
  | business :: rest =>
      print (PreviewName i (Name business)) ;;
      print (PreviewAddress
               (if truthy (Address business) then Address business
                else py "Not found")) ;;
      preview (i + 1) rest
  end.

Definition main (fuel : nat) (env : Env) : M unit :=
  print Starting ;;
  bs <- scrape_all_pages fuel env ;;
  save_to_csv env bs default_filename ;;
  print (TotalScraped (Z.of_nat (List.length bs))) ;;
  match bs with
  | [] => ret tt
  | _ :: _ =>
      print FirstFive ;;
      preview 1 (firstn 5 bs)
  end.

Definition empty_world : World := mkWorld [] (fun _ => None).

(** * Notions used to state the properties

    Sample documents and environments, the spec's own reading of the address
    rule, and monad-free readings of the effectful functions: what each
    returns and which events it leaves. *)

(** The address a paragraph gives once the loop stops at it. *)
Definition first_line_of (p : element) : str :=
  strip (hd [] (split newline (strip (text (self p))))).

(** A paragraph the address loop stops at. *)
Definition usable (p : element) : bool :=
  in_expected_div p && truthy (strip (text (self p))).

(** What the spec's wording of the address rule computes: the first
    paragraph under a recognised container, whatever its text, and the
    trimmed first line of that text. *)
Definition spec_address (article : node) : str :=
  match List.find in_expected_div (find_all paragraph_tag article) with
  | Some p => strip (hd [] (split newline (text (self p))))
  | None => []
  end.

(** Shorthands for sample documents. *)
Definition h2 (cs : list node) : node := Tag (py "h2") [] cs.
Definition a_ (cs : list node) : node := Tag (py "a") [] cs.
Definition p_ (s : string) : node := Tag (py "p") [] [NavigableString (py s)].
Definition div (cl : string) (cs : list node) : node := Tag (py "div") [py cl] cs.
Definition article_ (cs : list node) : node := Tag (py "article") [] cs.

(** A listing whose first paragraph under [.textof] is blank. *)
Definition blank_first_article : node :=
  article_ [h2 [a_ [NavigableString (py "Bar Uno")]];
            div "textof" [p_ "  "; p_ "Calle Feria 1"]].

Definition linked_article : node :=
  article_ [h2 [a_ [NavigableString (py " Bar Uno ")]];
            div "mask" [div "textof" [p_ "Calle Falsa 123
More text"]]].

Definition plain_article : node :=
  article_ [Tag (py "h3") [] [NavigableString (py "Plain Name")];
            div "other" [p_ "Calle Sol 2"]].

Definition no_heading_article : node :=
  article_ [div "textof" [p_ "Calle Sol 2"]].

(** The world after some more events, files untouched. *)
Definition add_events (w : World) (evs : list event) : World :=
  mkWorld (events w ++ evs) (files w).

(** The statuses [raise_for_status] raises on: 4xx and 5xx. *)
Definition http_error (response : Response) : bool :=
  (400 <=? status_code response) && (status_code response <? 600).

(** The document [get_page_content] returns, when it returns one. *)
Definition page_result (env : Env) (page_number : Z) : option node :=
  match requests_get env (page_url page_number) with
  | None => None
  | Some response =>
      if status_code response =? 404 then None
      else if http_error response then None
      else match content response with
           | Markup soup => Some soup
           | RejectedMarkup => None
           end
  end.

(** The fetch gets as far as the parser and the parser rejects the body. *)
Definition rejected (env : Env) (page_number : Z) : bool :=
  match requests_get env (page_url page_number) with
  | None => false
  | Some response =>
      if status_code response =? 404 then false
      else if http_error response then false
      else match content response with
           | Markup _ => false
           | RejectedMarkup => true
           end
  end.

(** How [get_page_content] ends. *)
Definition fetch_outcome (env : Env) (page_number : Z)
  : outcome (option node) :=
  if rejected env page_number then Raise ParserRejectedMarkup
  else Return (page_result env page_number).

(** The events [get_page_content] leaves. *)
Definition fetch_events (env : Env) (page_number : Z) : list event :=
  [Print (Fetching page_number (page_url page_number));
   Get (page_url page_number)] ++
  match requests_get env (page_url page_number) with
  | None => [Print (ErrorFetching page_number)]
  | Some response =>
      if status_code response =? 404 then []
      else if http_error response then [Print (ErrorFetching page_number)]
      else []
  end.

(** What the [for article in articles] loop appends, and what it prints. *)
Definition extracted (articles : list element) : list Business :=
  flat_map (fun article =>
              match extract_business_from_article (self article) with
              | Some business_data => [business_data]
              | None => []
              end) articles.

Definition found_events (articles : list element) : list event :=
  map (fun b => Print (Found (Name b) (shown_address b))) (extracted articles).

(** One turn of the loop, without the monad. *)
Definition body_result (env : Env) (s : RunState) : flow * RunState :=
  match page_result env (page s) with
  | None => (Break, s)
  | Some soup =>
      match find_all article_tag soup with
      | [] =>
          if empty_page_count s + 1 >=? max_empty_pages
          then (Break, mkRunState (page s) (businesses s)
                         (empty_page_count s + 1))
          else (Next, mkRunState (page s + 1) (businesses s)
                        (empty_page_count s + 1))
      | articles =>
          (Next, mkRunState (page s + 1)
                   (businesses s ++ extracted articles) 0)
      end
  end.

(** The events of that turn. *)
Definition body_events (env : Env) (s : RunState) : list event :=
  fetch_events env (page s) ++
  if rejected env (page s) then [] else
  match page_result env (page s) with
  | None => [Print (NoContentFound (page s))]
  | Some soup =>
      match find_all article_tag soup with
      | [] =>
          if empty_page_count s + 1 >=? max_empty_pages
          then [Print (NoMoreArticles max_empty_pages)]
          else [Sleep 2]
      | articles => found_events articles ++ [Sleep 2]
      end
  end.

(** The whole loop, without the monad: how it ends (the final state, or the
    exception of a rejected body) and the events of the run, or [None] when
    the fuel does not reach the end. *)
Fixpoint run (fuel : nat) (env : Env) (s : RunState)
  : option (outcome RunState * list event) :=
  match fuel with
  | O => None
  | S fuel' =>
      if rejected env (page s)
      then Some (Raise ParserRejectedMarkup, body_events env s)
      else
        match body_result env s with
        | (Break, s') => Some (Return s', body_events env s)
        | (Next, s') =>
            match run fuel' env s' with
            | None => None
            | Some (o, evs) => Some (o, body_events env s ++ evs)
            end
        end
  end.

(** The URLs requested, in order, among some events. *)
Fixpoint requested (evs : list event) : list str :=
  match evs with
  | [] => []
  | Get url :: rest => url :: requested rest
  | _ :: rest => requested rest
  end.

(** The answers that make a fetch absent: a transport failure, a 404, or
    another 4xx or 5xx status. *)
Definition absent (answer : option Response) : Prop :=
  match answer with
  | None => True
  | Some response => status_code response = 404 \/ http_error response = true
  end.

(** A page that is fetched and holds no [article]. *)
Definition empty_page (env : Env) (p : Z) : Prop :=
  exists soup, page_result env p = Some soup /\ find_all article_tag soup = [].

(** The states in which the loop can start a turn. *)
Inductive reachable (env : Env) : RunState -> Prop :=
| reach_initial : reachable env initial_state
| reach_next (s s' : RunState) (w w' : World) :
    reachable env s ->
    loop_body env s w = Some (Return (Next, s'), w') ->
    reachable env s'.

Definition empty_doc : node :=
  Tag (py "[document]") [] [Tag (py "html") [] [Tag (py "body") [] []]].

(** Every page answers 200 with a document that holds no listing. *)
Definition env_no_listing : Env :=
  mkEnv (fun _ => Some (mkResponse 200 (Markup empty_doc))) (fun _ => true).

(** Every page answers 404. *)
Definition env_not_found : Env :=
  mkEnv (fun _ => Some (mkResponse 404 (Markup empty_doc))) (fun _ => true).

(** Page 1 holds one listing; every later page answers 404 in the first
    environment and fails in transport in the second. *)
Definition env_then_404 : Env :=
  mkEnv (fun url =>
           if str_eqb url (page_url 1)
           then Some (mkResponse 200
                        (Markup (Tag (py "[document]") [] [linked_article])))
           else Some (mkResponse 404 (Markup empty_doc)))
        (fun _ => true).

Definition env_then_down : Env :=
  mkEnv (fun url =>
           if str_eqb url (page_url 1)
           then Some (mkResponse 200
                        (Markup (Tag (py "[document]") [] [linked_article])))
           else None)
        (fun _ => true).

Definition then_404_world : World :=
  Eval vm_compute in
    match scrape_all_pages 2 env_then_404 empty_world with
    | Some (_, w) => w
    | None => empty_world
    end.

(** The CSV row of a listing. *)
Definition row_of (b : Business) : row := [Name b; Address b].


(** Page 1 holds one listing, every other page answers 404, and the output
    file cannot be opened for writing. *)
Definition env_refused : Env :=
  mkEnv (fun url =>
           if str_eqb url (page_url 1)
           then Some (mkResponse 200
                        (Markup (Tag (py "[document]") [] [linked_article])))
           else Some (mkResponse 404 (Markup empty_doc)))
        (fun _ => false).

Definition refused_world : World :=
  mkWorld [Print Starting;
           Print (Fetching 1 (page_url 1)); Get (page_url 1);
           Print (Found (py "Bar Uno") (py "Calle Falsa 123"));
           Sleep 2;
           Print (Fetching 2 (page_url 2)); Get (page_url 2);
           Print (NoContentFound 2);
           Open default_filename]
          (fun _ => None).

(** ** Notions for the further properties *)

(** No white space at either end. *)
Definition trimmed (s : str) : Prop :=
  (forall c r, s = c :: r -> isspace c = false) /\
  (forall c r, s = r ++ [c] -> isspace c = false).

(** What every listing the extractor returns looks like. *)
Definition well_formed (b : Business) : Prop :=
  Name b <> [] /\ trimmed (Name b) /\
  ~ In newline (Address b) /\ trimmed (Address b).

(** [n] consecutive page numbers from [p] on. *)
Fixpoint pages_from (p : Z) (n : nat) : list Z :=
  match n with
  | O => []
  | S n' => p :: pages_from (p + 1) n'
  end.

(** One request per page with a pause of two seconds between a request and
    the next. *)
Fixpoint schedule (ps : list Z) : list event :=
  match ps with
  | [] => []
  | p :: rest =>
      Get (page_url p) ::
      match rest with
      | [] => []
      | _ :: _ => Sleep 2 :: schedule rest
      end
  end.

(** The requests and pauses among some events. *)
Fixpoint network (evs : list event) : list event :=
  match evs with
  | [] => []
  | Get url :: rest => Get url :: network rest
  | Sleep n :: rest => Sleep n :: network rest
  | _ :: rest => network rest
  end.

(** The files opened among some events. *)
Fixpoint opened (evs : list event) : list str :=
  match evs with
  | [] => []
  | Open f :: rest => f :: opened rest
  | _ :: rest => opened rest
  end.

(** The [Found] lines among some events. *)
Fixpoint found_lines (evs : list event) : list (str * str) :=
  match evs with
  | [] => []
  | Print (Found nm ad) :: rest => (nm, ad) :: found_lines rest
  | _ :: rest => found_lines rest
  end.

(** The numbered names of the preview among some events. *)
Fixpoint previewed (evs : list event) : list (Z * str) :=
  match evs with
  | [] => []
  | Print (PreviewName i nm) :: rest => (i, nm) :: previewed rest
  | _ :: rest => previewed rest
  end.

(** The listings one page contributes: none when the fetch is absent. *)
Definition page_listings (env : Env) (p : Z) : list Business :=
  match page_result env p with
  | None => []
  | Some soup => extracted (find_all article_tag soup)
  end.

(** A listing node without any heading, and a page made of two of them. *)
Definition headless_doc : node :=
  Tag (py "[document]") [] [no_heading_article; no_heading_article].

(** Page 1 holds one listing, page 2 two nodes without a heading, page 3
    nothing, page 4 one listing again, and page 5 is not found. *)
Definition env_site : Env :=
  mkEnv (fun url =>
           if str_eqb url (page_url 1)
           then Some (mkResponse 200
                        (Markup (Tag (py "[document]") [] [linked_article])))
           else if str_eqb url (page_url 2)
           then Some (mkResponse 200 (Markup headless_doc))
           else if str_eqb url (page_url 3)
           then Some (mkResponse 200 (Markup empty_doc))
           else if str_eqb url (page_url 4)
           then Some (mkResponse 200
                        (Markup (Tag (py "[document]") [] [blank_first_article])))
           else Some (mkResponse 404 (Markup empty_doc)))
        (fun _ => true).

(** What a scrape of [env_site] returns and the world it leaves. *)
Definition site_listings : list Business :=
  [mkBusiness (py "Bar Uno") (py "Calle Falsa 123");
   mkBusiness (py "Bar Uno") (py "Calle Feria 1")].

Definition site_world : World :=
  Eval vm_compute in
    match scrape_all_pages 5 env_site empty_world with
    | Some (_, w) => w
    | None => empty_world
    end.

(** The lines of the preview, as [preview] prints them. *)
Fixpoint preview_events (i : Z) (bs : list Business) : list event :=
  match bs with
  | [] => []
  | business :: rest =>
      Print (PreviewName i (Name business)) ::
      Print (PreviewAddress
               (if truthy (Address business) then Address business
                else py "Not found")) ::
      preview_events (i + 1) rest
  end.

(** [enumerate(l, i)]. *)
Fixpoint enumerate {A : Type} (i : Z) (l : list A) : list (Z * A) :=
  match l with
  | [] => []
  | x :: rest => (i, x) :: enumerate (i + 1) rest
  end.

(** Seven listings, to look past the five of the preview. *)
Definition seven_listings : list Business :=
  map (fun nm => mkBusiness (py nm) [])
      ["A"; "B"; "C"; "D"; "E"; "F"; "G"]%string.

(** The counter stands at 1 only right after an empty page. *)
Definition after_empty (env : Env) (s : RunState) : Prop :=
  empty_page_count s = 0 \/
  (empty_page_count s = 1 /\ empty_page env (page s - 1)).

(** What a [Found] line shows of a listing. *)
Definition found_line (b : Business) : str * str :=
  (Name b, shown_address b).


(** A page that is fetched and holds at least one [article]. *)
Definition has_listing_nodes (env : Env) (p : Z) : Prop :=
  exists soup,
    page_result env p = Some soup /\ find_all article_tag soup <> [].

(** Every page answers 200 with one listing. *)
Definition env_endless : Env :=
  mkEnv (fun _ => Some (mkResponse 200
                          (Markup (Tag (py "[document]") [] [linked_article]))))
        (fun _ => true).

(** The first page answers 200 with a body the parser rejects. *)
Definition env_rejected : Env :=
  mkEnv (fun _ => Some (mkResponse 200 RejectedMarkup)) (fun _ => true).

(** A listing whose heading holds a blank hyperlink next to its text. *)
Definition blank_link_article : node :=
  article_ [h2 [a_ [NavigableString (py "  ")];
                NavigableString (py "Bar Dos")];
            div "textof" [p_ "Calle Sol 2"]].

(** A decimal digit, and the number a string of digits writes. *)
Definition digit (c : char) : bool := ((48 <=? c) && (c <=? 57))%N.

Definition decimal_value (d : str) : Z :=
  fold_left (fun acc c => 10 * acc + (Z.of_N c - 48)) d 0.

(** [d] is how a positive [n] is written in base ten: digits only, the
    first of them not a zero, and [n] for value. *)
Definition decimal_of (n : Z) (d : str) : Prop :=
  forallb digit d = true /\ hd 48%N d <> 48%N /\ decimal_value d = n.

(** * Properties *)

(** ** Strings *)

Lemma str_eqb_refl (a : str) : str_eqb a a = true.
Proof.
  induction a as [|x a IH]; simpl; [reflexivity|].
  now rewrite N.eqb_refl.
Qed.

Lemma str_eqb_eq (a b : str) : str_eqb a b = true <-> a = b.
Proof.
  split; [|intros ->; apply str_eqb_refl].
  revert b; induction a as [|x a IH]; intros [|y b]; simpl;
    try discriminate; [reflexivity|].
  intros H; apply andb_true_iff in H as [Hx Hr].
  apply N.eqb_eq in Hx; subst; f_equal; auto.
Qed.

Lemma truthy_false (s : str) : truthy s = false <-> s = [].
Proof. destruct s; simpl; split; congruence. Qed.

Lemma lstrip_head (s : str) (c : char) (r : str) :
  lstrip s = c :: r -> isspace c = false.
Proof.
  induction s as [|a s IH]; simpl; [discriminate|].
  destruct (isspace a) eqn:E; [exact IH|].
  intros H; injection H as <- _; exact E.
Qed.

Lemma lstrip_keeps_last (l : str) (c : char) :
  isspace c = false -> exists u, lstrip (l ++ [c]) = u ++ [c].
Proof.
  intros Hc; induction l as [|a l IH]; simpl.
  - rewrite Hc; now exists [].
  - destruct (isspace a); [exact IH|].
    now exists (a :: l).
Qed.

Lemma rstrip_keeps_head (c : char) (w : str) :
  isspace c = false -> exists r, rstrip (c :: w) = c :: r.
Proof.
  intros Hc; unfold rstrip; simpl.
  destruct (lstrip_keeps_last (rev w) c Hc) as [u ->].
  rewrite rev_unit; now exists (rev u).
Qed.

Lemma strip_head (s : str) :
  truthy (strip s) = true ->
  exists c r, strip s = c :: r /\ isspace c = false.
Proof.
  unfold strip; destruct (lstrip s) as [|c t] eqn:E; [discriminate|].
  intros _; pose proof (lstrip_head _ _ _ E) as Hc.
  destruct (rstrip_keeps_head c t Hc) as [r ->]; eauto.
Qed.

Lemma strip_cons_nonspace (c : char) (w : str) :
  isspace c = false -> exists r, strip (c :: w) = c :: r.
Proof.
  intros Hc; unfold strip; simpl; rewrite Hc.
  now apply rstrip_keeps_head.
Qed.

Lemma split_hd_cons (sep c : char) (r : str) :
  (c =? sep)%N = false ->
  hd [] (split sep (c :: r)) = c :: hd [] (split sep r).
Proof.
  intros H; simpl; rewrite H.
  now destruct (split sep r).
Qed.

Lemma nonspace_not_newline (c : char) :
  isspace c = false -> (c =? newline)%N = false.
Proof.
  intros H; destruct (N.eqb_spec c newline) as [->|]; [discriminate|reflexivity].
Qed.

(** The inner test [if first_line:] never fails: the text was stripped, so
    its first line starts with a character that is not white space. *)
Lemma first_line_truthy (t : str) :
  truthy (strip t) = true ->
  truthy (strip (hd [] (split newline (strip t)))) = true.
Proof.
  intros H; destruct (strip_head t H) as (c & r & -> & Hc).
  rewrite split_hd_cons by now apply nonspace_not_newline.
  now destruct (strip_cons_nonspace c (hd [] (split newline r)) Hc) as [r' ->].
Qed.

(** ** The listing extractor *)

Lemma address_loop_skip (before rest : list element) :
  (forall q, In q before -> usable q = false) ->
  address_loop (before ++ rest) = address_loop rest.
Proof.
  induction before as [|q before IH]; intros Hb; [reflexivity|].
  simpl; pose proof (Hb q (or_introl eq_refl)) as Hq.
  unfold usable in Hq.
  rewrite IH by (intros; apply Hb; now right).
  destruct (in_expected_div q); [|reflexivity].
  simpl in Hq; rewrite Hq; reflexivity.
Qed.

Lemma address_loop_stop (p : element) (rest : list element) :
  usable p = true -> address_loop (p :: rest) = first_line_of p.
Proof.
  unfold usable; intros H; apply andb_true_iff in H as [Hd Ht].
  simpl; rewrite Hd, Ht, (first_line_truthy _ Ht); reflexivity.
Qed.

Lemma address_loop_none (ps : list element) :
  (forall q, In q ps -> usable q = false) -> address_loop ps = [].
Proof.
  intros H; rewrite <- (app_nil_r ps).
  now rewrite address_loop_skip.
Qed.

(** The test cases of the spec, run on the extractor. *)
Example extract_linked :
  extract_business_from_article linked_article
  = Some (mkBusiness (py "Bar Uno") (py "Calle Falsa 123")).
Proof. vm_compute. reflexivity. Qed.

Example extract_plain :
  extract_business_from_article plain_article
  = Some (mkBusiness (py "Plain Name") []).
Proof. vm_compute. reflexivity. Qed.

Example extract_no_heading :
  extract_business_from_article no_heading_article = None.
Proof. vm_compute. reflexivity. Qed.

Lemma lstrip_nil_iff (s : str) :
  lstrip s = [] <-> forallb isspace s = true.
Proof.
  induction s as [|c r IH]; simpl; [tauto|].
  destruct (isspace c); [exact IH|].
  split; discriminate.
Qed.

Lemma forallb_rev (f : char -> bool) (s : str) :
  forallb f (rev s) = forallb f s.
Proof.
  induction s as [|c r IH]; [reflexivity|]; simpl.
  rewrite forallb_app, IH; simpl.
  now rewrite andb_true_r, andb_comm.
Qed.

(** Trimming leaves nothing exactly when there was white space only. *)
Lemma strip_nil_iff (s : str) :
  strip s = [] <-> forallb isspace s = true.
Proof.
  unfold strip, rstrip; split.
  - intros H; apply (f_equal (@rev char)) in H.
    rewrite rev_involutive in H; simpl in H.
    apply lstrip_nil_iff in H; rewrite forallb_rev in H.
    apply lstrip_nil_iff.
    destruct (lstrip s) as [|c r] eqn:E; [reflexivity|].
    apply lstrip_head in E; simpl in H; rewrite E in H; discriminate.
  - intros H; apply lstrip_nil_iff in H; rewrite H; reflexivity.
Qed.

(** C3: extraction gives the absence signal exactly when the listing has no
    heading of rank 2 or 3, or when the text the name is taken from, that
    of the first hyperlink in the first such heading, or the heading's own
    when it has no hyperlink, is made of white space only, so that nothing
    is left of it once trimmed; in every other case a listing comes back. *)
Theorem extract_absent_iff (article : node) :
  extract_business_from_article article = None <->
  (find heading_tags article = None \/
   exists title_element,
     find heading_tags article = Some title_element /\
     forallb isspace
       (match find link_tag (self title_element) with
        | Some title_link => text (self title_link)
        | None => text (self title_element)
        end) = true).
Proof.
  unfold extract_business_from_article.
  destruct (find heading_tags article) as [h|]; [|intuition].
  assert (Hname : business_name_of h = [] <->
                  forallb isspace
                    (match find link_tag (self h) with
                     | Some title_link => text (self title_link)
                     | None => text (self h)
                     end) = true).
  { unfold business_name_of.
    destruct (find link_tag (self h)); apply strip_nil_iff. }
  destruct (business_name_of h) as [|c r] eqn:E; simpl; split.
  - intros _; right; exists h; split; [reflexivity|now apply Hname].
  - reflexivity.
  - discriminate.
  - intros [H|(h' & H & Hn)]; [discriminate|].
    injection H as <-; apply Hname in Hn; discriminate.
Qed.

Lemma extract_absent_iff_witness :
  extract_business_from_article blank_link_article = None.
Proof.
  apply (proj2 (extract_absent_iff blank_link_article)).
  right; eexists; split; reflexivity.
Defined.

(** C4: when the first heading of rank 2 or 3 holds a hyperlink, the name
    is the trimmed text of that hyperlink; when it holds none, the name is
    the trimmed text of the heading.  An empty name means no listing. *)
Theorem extract_name (article : node) (title_element : element)
  (Hfind : find heading_tags article = Some title_element) :
  (forall title_link,
     find link_tag (self title_element) = Some title_link ->
     option_map Name (extract_business_from_article article)
     = if truthy (strip (text (self title_link)))
       then Some (strip (text (self title_link))) else None) /\
  (find link_tag (self title_element) = None ->
     option_map Name (extract_business_from_article article)
     = if truthy (strip (text (self title_element)))
       then Some (strip (text (self title_element))) else None).
Proof.
  unfold extract_business_from_article, business_name_of; rewrite Hfind.
  split; [intros l Hl|intros Hl]; rewrite Hl;
    match goal with |- context [truthy ?s] => destruct (truthy s) end;
    reflexivity.
Qed.

Lemma extract_name_witness :
  option_map Name (extract_business_from_article linked_article)
  = Some (py "Bar Uno").
Proof.
  pose proof (extract_name linked_article
    (mkElement linked_article (h2 [a_ [NavigableString (py " Bar Uno ")]]))
    eq_refl) as [H _].
  exact (H (mkElement (h2 [a_ [NavigableString (py " Bar Uno ")]])
                      (a_ [NavigableString (py " Bar Uno ")])) eq_refl).
Defined.

(** C5, as the spec words it, fails: a blank paragraph under a recognised
    container is passed over, and the address comes from a later one. *)
Lemma address_first_accepted_counterexample :
  exists b,
    extract_business_from_article blank_first_article = Some b /\
    Address b = py "Calle Feria 1" /\
    spec_address blank_first_article = [] /\
    Address b <> spec_address blank_first_article.
Proof.
  eexists; split; [vm_compute; reflexivity|].
  split; [reflexivity|]; split; [vm_compute; reflexivity|].
  vm_compute; discriminate.
Qed.

(** C5, amended: the address is the trimmed first line of the trimmed text
    of the first paragraph, in document order, that sits directly under a
    recognised container and whose text is not blank.  Paragraphs before it
    that fail either test are passed over, and whatever follows it is never
    looked at. *)
Theorem extract_address (article : node) (b : Business)
  (before after : list element) (p : element)
  (Hb : extract_business_from_article article = Some b)
  (Hsplit : find_all paragraph_tag article = before ++ p :: after)
  (Hbefore : forall q, In q before ->
               in_expected_div q && truthy (strip (text (self q))) = false)
  (Hdiv : in_expected_div p = true)
  (Htext : truthy (strip (text (self p))) = true) :
  Address b = strip (hd [] (split newline (strip (text (self p))))).
Proof.
  unfold extract_business_from_article in Hb.
  destruct (find heading_tags article) as [h|]; [|discriminate].
  destruct (negb (truthy (business_name_of h))); [discriminate|].
  injection Hb as <-; simpl.
  rewrite Hsplit, address_loop_skip by exact Hbefore.
  apply address_loop_stop; unfold usable; now rewrite Hdiv, Htext.
Qed.

Lemma extract_address_witness :
  Address (mkBusiness (py "Bar Uno") (py "Calle Feria 1")) = py "Calle Feria 1".
Proof.
  refine (extract_address blank_first_article
            (mkBusiness (py "Bar Uno") (py "Calle Feria 1"))
            [mkElement (div "textof" [p_ "  "; p_ "Calle Feria 1"]) (p_ "  ")]
            []
            (mkElement (div "textof" [p_ "  "; p_ "Calle Feria 1"])
                       (p_ "Calle Feria 1"))
            eq_refl eq_refl _ eq_refl eq_refl).
  intros q [<-|[]]; reflexivity.
Defined.

(** C6: with no paragraph directly under a recognised container, extraction
    still succeeds whenever the name rule is met, and the address is the
    empty string. *)
Theorem extract_no_address (article : node) (title_element : element)
  (Hfind : find heading_tags article = Some title_element)
  (Hname : truthy (business_name_of title_element) = true)
  (Hnone : forall p, In p (find_all paragraph_tag article) ->
             in_expected_div p = false) :
  extract_business_from_article article
  = Some (mkBusiness (business_name_of title_element) []).
Proof.
  unfold extract_business_from_article; rewrite Hfind, Hname; simpl.
  rewrite address_loop_none; [reflexivity|].
  intros q Hq; unfold usable; now rewrite (Hnone q Hq).
Qed.

Lemma extract_no_address_witness :
  extract_business_from_article plain_article
  = Some (mkBusiness (py "Plain Name") []).
Proof.
  refine (extract_no_address plain_article
            (mkElement plain_article
               (Tag (py "h3") [] [NavigableString (py "Plain Name")]))
            eq_refl eq_refl _).
  intros p [<-|[]]; reflexivity.
Defined.

(** ** The page fetcher *)

Example page_url_1 : page_url 1 = base_url.
Proof. reflexivity. Qed.

Example page_url_12 :
  page_url 12
  = py "https://redsevillasingluten.org/category/establecimientos-de-la-red/page/12/".
Proof. vm_compute. reflexivity. Qed.

(** ** Running the effectful code

    Each effectful function is matched with what it returns and the events
    it leaves behind, so that a run can be followed without unfolding the
    monad again. *)

Lemma add_events_nil (w : World) : add_events w [] = w.
Proof. destruct w; unfold add_events; simpl; now rewrite app_nil_r. Qed.

Lemma add_events_app (w : World) (a b : list event) :
  add_events (add_events w a) b = add_events w (a ++ b).
Proof. unfold add_events; simpl; now rewrite app_assoc. Qed.

Lemma get_page_content_run (env : Env) (page_number : Z) (w : World) :
  get_page_content env page_number w
  = Some (fetch_outcome env page_number,
          add_events w (fetch_events env page_number)).
Proof.
  unfold get_page_content, fetch_outcome, rejected, page_result, fetch_events,
    http_error, try_except_request, requests_get_m, raise_for_status,
    BeautifulSoup, print, emit, bind, ret, raise, add_events; simpl.
  destruct (requests_get env (page_url page_number)) as [r|]; simpl.
  - destruct (status_code r =? 404); simpl;
      [now rewrite <- app_assoc|].
    destruct ((400 <=? status_code r) && (status_code r <? 600)); simpl;
      [now rewrite <- ?app_assoc|].
    destruct (content r); simpl; now rewrite <- ?app_assoc, ?app_nil_r.
  - now rewrite <- !app_assoc.
Qed.

Lemma rejected_no_page (env : Env) (p : Z) :
  rejected env p = true -> page_result env p = None.
Proof.
  unfold rejected, page_result.
  destruct (requests_get env (page_url p)) as [r|]; [|reflexivity].
  destruct (status_code r =? 404); [reflexivity|].
  destruct (http_error r); [reflexivity|].
  now destruct (content r).
Qed.

Lemma page_not_rejected (env : Env) (p : Z) (soup : node) :
  page_result env p = Some soup -> rejected env p = false.
Proof.
  intros H; destruct (rejected env p) eqn:E; [|reflexivity].
  rewrite (rejected_no_page _ _ E) in H; discriminate.
Qed.

Lemma fetch_outcome_page (env : Env) (p : Z) (soup : node) :
  page_result env p = Some soup -> fetch_outcome env p = Return (Some soup).
Proof.
  intros H; unfold fetch_outcome.
  now rewrite (page_not_rejected _ _ _ H), H.
Qed.

Lemma for_articles_run (articles : list element) (acc : list Business)
  (w : World) :
  for_articles articles acc w
  = Some (Return (acc ++ extracted articles),
          add_events w (found_events articles)).
Proof.
  revert acc w; induction articles as [|a rest IH]; intros acc w.
  - unfold found_events; simpl; now rewrite app_nil_r, add_events_nil.
  - simpl; unfold found_events, extracted; simpl.
    destruct (extract_business_from_article (self a)) as [b|]; simpl.
    + unfold bind, print, emit; simpl.
      change (mkWorld (events w ++ [Print (Found (Name b) (shown_address b))])
                (files w))
        with (add_events w [Print (Found (Name b) (shown_address b))]).
      rewrite IH, add_events_app, <- app_assoc; reflexivity.
    + apply IH.
Qed.

Lemma loop_body_run (env : Env) (s : RunState) (w : World) :
  loop_body env s w
  = Some (if rejected env (page s) then Raise ParserRejectedMarkup
          else Return (body_result env s),
          add_events w (body_events env s)).
Proof.
  unfold loop_body, body_result, body_events.
  unfold bind at 1; rewrite get_page_content_run; unfold fetch_outcome.
  destruct (rejected env (page s)); [now rewrite app_nil_r|].
  destruct (page_result env (page s)) as [soup|].
  - destruct (find_all article_tag soup) as [|a rest].
    + destruct (empty_page_count s + 1 >=? max_empty_pages);
        unfold bind, print, sleep, emit, ret; simpl;
        unfold add_events; simpl; now rewrite <- app_assoc.
    + unfold bind at 1; rewrite for_articles_run.
      unfold bind, sleep, emit, ret; simpl.
      unfold add_events; simpl; now rewrite <- !app_assoc.
  - unfold bind, print, emit, ret; simpl.
    unfold add_events; simpl; now rewrite <- app_assoc.
Qed.

Lemma while_true_run (fuel : nat) (env : Env) (s : RunState) (w : World) :
  while_true fuel env s w
  = match run fuel env s with
    | None => None
    | Some (o, evs) => Some (o, add_events w evs)
    end.
Proof.
  revert s w; induction fuel as [|fuel IH]; intros s w; [reflexivity|].
  cbn [while_true run]; unfold bind; rewrite loop_body_run.
  destruct (rejected env (page s)); [reflexivity|].
  destruct (body_result env s) as [[|] s']; [reflexivity|].
  rewrite IH; destruct (run fuel env s') as [[o evs]|]; [|reflexivity].
  now rewrite add_events_app.
Qed.

(** ** The URL of a page *)

Lemma py_cons (a : ascii) (r : string) : py (String a r) = N_of_ascii a :: py r.
Proof. reflexivity. Qed.

Lemma digits_of_uint (d : Decimal.uint) :
  forallb digit (py (NilEmpty.string_of_uint d)) = true.
Proof.
  induction d; simpl NilEmpty.string_of_uint; rewrite ?py_cons;
    simpl; auto.
Qed.

Lemma value_of_uint_acc (d : Decimal.uint) :
  forall acc : positive,
    fold_left (fun a c => 10 * a + (Z.of_N c - 48))
      (py (NilEmpty.string_of_uint d)) (Z.pos acc)
    = Z.pos (Pos.of_uint_acc d acc).
Proof.
  induction d; intros acc; simpl NilEmpty.string_of_uint;
    rewrite ?py_cons; cbn [fold_left Pos.of_uint_acc]; [reflexivity|..];
    rewrite <- IHd; f_equal;
    change (Z.of_N (N_of_ascii "0")) with 48;
    change (Z.of_N (N_of_ascii "1")) with 49;
    change (Z.of_N (N_of_ascii "2")) with 50;
    change (Z.of_N (N_of_ascii "3")) with 51;
    change (Z.of_N (N_of_ascii "4")) with 52;
    change (Z.of_N (N_of_ascii "5")) with 53;
    change (Z.of_N (N_of_ascii "6")) with 54;
    change (Z.of_N (N_of_ascii "7")) with 55;
    change (Z.of_N (N_of_ascii "8")) with 56;
    change (Z.of_N (N_of_ascii "9")) with 57;
    lia.
Qed.

Lemma value_of_uint (d : Decimal.uint) :
  decimal_value (py (NilEmpty.string_of_uint d)) = Z.of_N (Pos.of_uint d).
Proof.
  unfold decimal_value.
  induction d; simpl NilEmpty.string_of_uint; rewrite ?py_cons;
    simpl Pos.of_uint; [reflexivity|exact IHd|..];
    cbn [fold_left];
    match goal with
    | |- fold_left _ _ ?a = Z.of_N (N.pos (Pos.of_uint_acc _ ?k)) =>
        change a with (Z.pos k); apply value_of_uint_acc
    end.
Qed.

Lemma to_uint_head (q : positive) (d : Decimal.uint) :
  Pos.to_uint q <> Decimal.D0 d.
Proof.
  intros H.
  pose proof (DecimalPos.Unsigned.to_of (Pos.to_uint q)) as Hn.
  rewrite DecimalPos.Unsigned.of_to in Hn; simpl N.to_uint in Hn.
  unfold Decimal.unorm in Hn.
  destruct (Decimal.nzhead (Pos.to_uint q)) eqn:E;
    try (rewrite H in Hn; discriminate Hn).
  - apply (DecimalPos.Unsigned.to_uint_nonzero q); exact Hn.
  - rewrite H in Hn; injection Hn as <-.
    exact (DecimalFacts.nzhead_nonzero _ _ E).
Qed.

(** [str(n)] writes a positive [n] in base ten. *)
Lemma str_of_int_decimal (n : Z) : 0 < n -> decimal_of n (str_of_int n).
Proof.
  destruct n as [|q|q]; try lia; intros _.
  unfold decimal_of, str_of_int; simpl Z.to_int.
  unfold NilZero.string_of_int, NilZero.string_of_uint.
  pose proof (to_uint_head q) as Hhead.
  pose proof (DecimalPos.Unsigned.of_to q) as Hval.
  destruct (Pos.to_uint q) as [|d|d|d|d|d|d|d|d|d|d] eqn:E;
    try (exfalso; exact (Hhead _ eq_refl));
    try (discriminate Hval);
    (split; [apply digits_of_uint|]);
    (split; [simpl NilEmpty.string_of_uint; rewrite py_cons; discriminate|]);
    rewrite value_of_uint, Hval; reflexivity.
Qed.

(** C7: for a positive page index [N] the fetcher asks for one URL, the one
    it prints: the bare category URL when [N = 1], and when [N > 1] the
    category URL followed by [page/], [N] written in base ten, and [/]. *)
Theorem page_url_spec (env : Env) (N : Z) (w : World) (Hpos : 0 < N) :
  exists url out rest,
    get_page_content env N w
    = Some (out, add_events w (Print (Fetching N url) :: Get url :: rest)) /\
    requested rest = [] /\
    (N = 1 -> url = base_url) /\
    (1 < N ->
     exists d, decimal_of N d /\ url = base_url ++ py "page/" ++ d ++ py "/").
Proof.
  exists (page_url N), (fetch_outcome env N).
  eexists; split; [apply get_page_content_run|].
  split; [|split].
  - destruct (requests_get env (page_url N)) as [r|]; [|reflexivity].
    destruct (status_code r =? 404); [reflexivity|].
    now destruct (http_error r).
  - intros ->; reflexivity.
  - intros H; exists (str_of_int N).
    split; [now apply str_of_int_decimal|].
    unfold page_url; destruct (Z.eqb_spec N 1); [lia|reflexivity].
Qed.

Lemma page_url_spec_witness :
  exists url out rest,
    get_page_content env_site 12 empty_world
    = Some (out, add_events empty_world
                   (Print (Fetching 12 url) :: Get url :: rest)) /\
    requested rest = [] /\
    (12 = 1 -> url = base_url) /\
    (1 < 12 ->
     exists d, decimal_of 12 d /\ url = base_url ++ py "page/" ++ d ++ py "/").
Proof.
  apply (page_url_spec env_site 12 empty_world); reflexivity.
Defined.

(** ** The pagination driver *)

Lemma requested_app (a b : list event) :
  requested (a ++ b) = requested a ++ requested b.
Proof.
  induction a as [|e a IH]; [reflexivity|].
  destruct e; simpl; now rewrite IH.
Qed.

Lemma requested_fetch (env : Env) (p : Z) :
  requested (fetch_events env p) = [page_url p].
Proof.
  unfold fetch_events; simpl.
  destruct (requests_get env (page_url p)) as [r|]; [|reflexivity].
  destruct (status_code r =? 404); [reflexivity|].
  now destruct (http_error r).
Qed.

Lemma requested_found (articles : list element) :
  requested (found_events articles) = [].
Proof.
  unfold found_events; induction (extracted articles); simpl; auto.
Qed.

Lemma page_result_absent (env : Env) (p : Z) :
  absent (requests_get env (page_url p)) <->
  page_result env p = None /\ rejected env p = false.
Proof.
  unfold page_result, rejected, absent.
  destruct (requests_get env (page_url p)) as [r|]; [|intuition].
  destruct (Z.eqb_spec (status_code r) 404) as [E|E]; [intuition|].
  destruct (http_error r); [intuition|].
  destruct (content r); intuition discriminate.
Qed.

Lemma fetch_outcome_absent (env : Env) (p : Z) :
  absent (requests_get env (page_url p)) <->
  fetch_outcome env p = Return None.
Proof.
  rewrite page_result_absent; unfold fetch_outcome.
  destruct (rejected env p) eqn:E.
  - split; [intros [_ H]; discriminate|discriminate].
  - split; [intros [-> _]; reflexivity|].
    intros H; injection H as H; auto.
Qed.

Lemma body_next_count (env : Env) (s s' : RunState) :
  0 <= empty_page_count s ->
  body_result env s = (Next, s') ->
  empty_page_count s' = 0 \/ empty_page_count s' = 1.
Proof.
  intros Hc; unfold body_result, max_empty_pages.
  destruct (page_result env (page s)) as [soup|]; [|discriminate].
  destruct (find_all article_tag soup).
  - destruct (Z.geb_spec (empty_page_count s + 1) 2) as [Hge|Hlt];
      [discriminate|].
    intros Heq; injection Heq as <-; simpl; lia.
  - intros Heq; injection Heq as <-; now left.
Qed.

Lemma reachable_count (env : Env) (s : RunState) :
  reachable env s -> empty_page_count s = 0 \/ empty_page_count s = 1.
Proof.
  induction 1 as [|s s' w w' _ IH Hstep]; [now left|].
  rewrite loop_body_run in Hstep.
  destruct (rejected env (page s)); [discriminate|].
  injection Hstep as Hstep _.
  apply (body_next_count env s); [lia|exact Hstep].
Qed.

Lemma empty_page_not_rejected (env : Env) (p : Z) :
  empty_page env p -> rejected env p = false.
Proof.
  intros (soup & Hp & _); exact (page_not_rejected _ _ _ Hp).
Qed.

Lemma body_empty (env : Env) (s : RunState) :
  empty_page env (page s) ->
  body_result env s
  = (if empty_page_count s + 1 >=? max_empty_pages
     then (Break, mkRunState (page s) (businesses s) (empty_page_count s + 1))
     else (Next, mkRunState (page s + 1) (businesses s)
                   (empty_page_count s + 1))) /\
  body_events env s
  = fetch_events env (page s) ++
    (if empty_page_count s + 1 >=? max_empty_pages
     then [Print (NoMoreArticles max_empty_pages)] else [Sleep 2]).
Proof.
  intros (soup & Hp & Ha); unfold body_result, body_events.
  now rewrite (page_not_rejected _ _ _ Hp), Hp, Ha.
Qed.

Lemma body_first_empty (env : Env) (s : RunState) :
  empty_page env (page s) -> empty_page_count s = 0 ->
  body_result env s = (Next, mkRunState (page s + 1) (businesses s) 1) /\
  body_events env s = fetch_events env (page s) ++ [Sleep 2].
Proof.
  intros Hp Hc; destruct (body_empty env s Hp) as [Hr He].
  rewrite Hc in Hr, He; split; [exact Hr|exact He].
Qed.

Lemma body_second_empty (env : Env) (s : RunState) :
  empty_page env (page s) -> empty_page_count s = 1 ->
  body_result env s = (Break, mkRunState (page s) (businesses s) 2) /\
  body_events env s
  = fetch_events env (page s) ++ [Print (NoMoreArticles 2)].
Proof.
  intros Hp Hc; destruct (body_empty env s Hp) as [Hr He].
  rewrite Hc in Hr, He; split; [exact Hr|exact He].
Qed.

Lemma run_S (fuel : nat) (env : Env) (s : RunState) :
  run (S fuel) env s
  = if rejected env (page s)
    then Some (Raise ParserRejectedMarkup, body_events env s)
    else
      match body_result env s with
      | (Break, s') => Some (Return s', body_events env s)
      | (Next, s') =>
          match run fuel env s' with
          | None => None
          | Some (o, evs) => Some (o, body_events env s ++ evs)
          end
      end.
Proof. reflexivity. Qed.

Lemma run_S_ok (fuel : nat) (env : Env) (s : RunState) :
  rejected env (page s) = false ->
  run (S fuel) env s
  = match body_result env s with
    | (Break, s') => Some (Return s', body_events env s)
    | (Next, s') =>
        match run fuel env s' with
        | None => None
        | Some (o, evs) => Some (o, body_events env s ++ evs)
        end
    end.
Proof. intros H; now rewrite run_S, H. Qed.

(** C1: when the page about to be fetched and the one after it both hold no
    listing, the run ends right after the second empty page.  If the counter
    stands at 0 both pages are fetched, the counter goes to 1 and then to 2,
    and nothing is requested after the second page.  If it already stands
    at 1, the page about to be fetched is itself the second empty page in a
    row and the run ends on it. *)
Theorem two_empty_pages_stop (env : Env) (s : RunState) (fuel : nat)
  (w : World)
  (Hreach : reachable env s)
  (Hfirst : empty_page env (page s))
  (Hsecond : empty_page env (page s + 1)) :
  (empty_page_count s = 0 /\
   loop_body env s w
   = Some (Return (Next, mkRunState (page s + 1) (businesses s) 1),
           add_events w (fetch_events env (page s) ++ [Sleep 2])) /\
   while_true (S (S fuel)) env s w
   = Some (Return (mkRunState (page s + 1) (businesses s) 2),
           add_events w
             (fetch_events env (page s) ++ [Sleep 2] ++
              fetch_events env (page s + 1) ++
              [Print (NoMoreArticles 2)])) /\
   requested (fetch_events env (page s) ++ [Sleep 2] ++
              fetch_events env (page s + 1) ++ [Print (NoMoreArticles 2)])
   = [page_url (page s); page_url (page s + 1)])
  \/
  (empty_page_count s = 1 /\
   while_true (S (S fuel)) env s w
   = Some (Return (mkRunState (page s) (businesses s) 2),
           add_events w
             (fetch_events env (page s) ++ [Print (NoMoreArticles 2)])) /\
   requested (fetch_events env (page s) ++ [Print (NoMoreArticles 2)])
   = [page_url (page s)]).
Proof.
  destruct (reachable_count env s Hreach) as [Hc|Hc]; [left|right];
    (split; [exact Hc|]).
  - destruct (body_first_empty env s Hfirst Hc) as [Hr He].
    destruct (body_second_empty env
                (mkRunState (page s + 1) (businesses s) 1) Hsecond eq_refl)
      as [Hr1 He1].
    pose proof (empty_page_not_rejected _ _ Hfirst) as Hn.
    pose proof (empty_page_not_rejected _ _ Hsecond) as Hn1.
    split; [rewrite loop_body_run, Hn, Hr, He; reflexivity|].
    split.
    + rewrite while_true_run, (run_S_ok _ _ _ Hn), Hr.
      rewrite (run_S_ok fuel env (mkRunState (page s + 1) (businesses s) 1) Hn1).
      rewrite Hr1, He, He1.
      rewrite <- app_assoc; reflexivity.
    + rewrite !requested_app, !requested_fetch; reflexivity.
  - destruct (body_second_empty env s Hfirst Hc) as [Hr He].
    pose proof (empty_page_not_rejected _ _ Hfirst) as Hn.
    split.
    + rewrite while_true_run, (run_S_ok _ _ _ Hn), Hr, He; reflexivity.
    + rewrite requested_app, requested_fetch; reflexivity.
Qed.

(** C2: a fetch that comes back absent (transport failure, 404, another 4xx
    or 5xx) ends the run on the spot, whatever the counter holds: the state
    is handed back as it stood, so the accumulated listings are unchanged,
    and the request for that page is the last one made. *)
Theorem absent_fetch_stops (env : Env) (s : RunState) (fuel : nat) (w : World)
  (Habsent : absent (requests_get env (page_url (page s)))) :
  get_page_content env (page s) w
  = Some (Return None, add_events w (fetch_events env (page s))) /\
  while_true (S fuel) env s w
  = Some (Return s,
          add_events w (fetch_events env (page s) ++
                        [Print (NoContentFound (page s))])) /\
  requested (fetch_events env (page s) ++ [Print (NoContentFound (page s))])
  = [page_url (page s)].
Proof.
  pose proof (proj1 (fetch_outcome_absent _ _) Habsent) as Hout.
  apply page_result_absent in Habsent as [Hnone Hn].
  split; [rewrite get_page_content_run, Hout; reflexivity|].
  split.
  - rewrite while_true_run, (run_S_ok _ _ _ Hn).
    unfold body_result, body_events; rewrite Hnone, Hn; reflexivity.
  - rewrite requested_app, requested_fetch; reflexivity.
Qed.

Lemma two_empty_pages_stop_witness :
  exists evs,
    while_true 2 env_no_listing initial_state empty_world
    = Some (Return (mkRunState 2 [] 2), add_events empty_world evs) /\
    requested evs = [page_url 1; page_url 2].
Proof.
  destruct (two_empty_pages_stop env_no_listing initial_state 0 empty_world
              (reach_initial _)
              (ex_intro _ empty_doc (conj eq_refl eq_refl))
              (ex_intro _ empty_doc (conj eq_refl eq_refl)))
    as [(_ & _ & Hrun & Hreq)|(Hc & _)].
  - eexists; split; [exact Hrun|exact Hreq].
  - discriminate Hc.
Defined.

Lemma absent_fetch_stops_witness :
  while_true 1 env_not_found
    (mkRunState 3 [mkBusiness (py "Bar Uno") []] 1) empty_world
  = Some (Return (mkRunState 3 [mkBusiness (py "Bar Uno") []] 1),
          add_events empty_world
            [Print (Fetching 3 (page_url 3)); Get (page_url 3);
             Print (NoContentFound 3)]).
Proof.
  exact (proj1 (proj2
    (absent_fetch_stops env_not_found
       (mkRunState 3 [mkBusiness (py "Bar Uno") []] 1) 0 empty_world
       (or_introl eq_refl)))).
Defined.

Lemma scrape_all_pages_run (fuel : nat) (env : Env) (w : World) :
  scrape_all_pages fuel env w
  = match run fuel env initial_state with
    | None => None
    | Some (Return s', evs) =>
        Some (Return (businesses s'), add_events w evs)
    | Some (Raise e, evs) => Some (Raise e, add_events w evs)
    end.
Proof.
  unfold scrape_all_pages, bind; rewrite while_true_run.
  now destruct (run fuel env initial_state) as [[[s'|e] evs]|].
Qed.

(** ** The writer *)

Lemma row_of_fieldnames (b : Business) :
  map (get_field b) fieldnames = row_of b.
Proof. reflexivity. Qed.

Lemma set_file_same (filename : str) (rows : list row) (w : World) :
  files (set_file filename rows w) filename = Some rows.
Proof. simpl; now rewrite str_eqb_refl. Qed.

Lemma set_file_other (filename f : str) (rows : list row) (w : World) :
  f <> filename -> files (set_file filename rows w) f = files w f.
Proof.
  intros H; simpl; destruct (str_eqb f filename) eqn:E; [|reflexivity].
  apply str_eqb_eq in E; contradiction.
Qed.

Lemma write_businesses_run (filename : str) (bs : list Business) :
  forall (w : World) (old : list row),
    files w filename = Some old ->
    exists w',
      write_businesses filename bs w = Some (Return tt, w') /\
      events w' = events w /\
      files w' filename = Some (old ++ map row_of bs) /\
      (forall f, f <> filename -> files w' f = files w f).
Proof.
  induction bs as [|b rest IH]; intros w old Hold.
  - exists w; simpl; rewrite app_nil_r; auto.
  - change (write_businesses filename (b :: rest) w)
      with (bind (writerow filename (map (get_field b) fieldnames))
                 (fun _ => write_businesses filename rest) w).
    rewrite row_of_fieldnames; unfold bind, writerow; rewrite Hold.
    destruct (IH (set_file filename (old ++ [row_of b]) w) (old ++ [row_of b])
                (set_file_same _ _ _)) as (w' & Hrun & Hev & Hfile & Hother).
    exists w'; split; [exact Hrun|].
    split; [exact Hev|]; split.
    + rewrite Hfile, <- app_assoc; reflexivity.
    + intros f Hf; rewrite (Hother f Hf); now apply set_file_other.
Qed.

Lemma save_to_csv_opened (env : Env) (b : Business) (rest : list Business)
  (filename : str) (w : World) :
  can_open env filename = true ->
  exists w',
    save_to_csv env (b :: rest) filename w = Some (Return tt, w') /\
    events w'
    = events w ++ [Open filename;
                   Print (Saved (Z.of_nat (List.length (b :: rest))) filename)] /\
    files w' filename = Some (fieldnames :: map row_of (b :: rest)) /\
    (forall f, f <> filename -> files w' f = files w f).
Proof.
  intros Hopen; unfold save_to_csv, open_w, bind, emit, writerow.
  rewrite Hopen.
  match goal with
  | |- context [write_businesses filename (b :: rest) ?w0] =>
      destruct (write_businesses_run filename (b :: rest) w0 [fieldnames])
        as (w1 & Hrun & Hev & Hfile & Hother)
  end.
  { rewrite set_file_same, set_file_same; reflexivity. }
  rewrite Hrun; unfold print, emit.
  eexists; split; [reflexivity|]; simpl.
  split; [rewrite Hev; simpl; now rewrite <- app_assoc|].
  split; [exact Hfile|].
  intros f Hf; rewrite (Hother f Hf).
  rewrite set_file_other, set_file_other by exact Hf; reflexivity.
Qed.

Lemma save_to_csv_refused (env : Env) (b : Business) (rest : list Business)
  (filename : str) (w : World) :
  can_open env filename = false ->
  save_to_csv env (b :: rest) filename w
  = Some (Raise OSError, add_events w [Open filename]).
Proof.
  intros Hopen; unfold save_to_csv, open_w, bind, emit; now rewrite Hopen.
Qed.



(** ** Determinism *)

Lemma fetch_outcome_agree (env1 env2 : Env) (p : Z) :
  fetch_outcome env1 p = fetch_outcome env2 p ->
  rejected env1 p = rejected env2 p /\
  page_result env1 p = page_result env2 p.
Proof.
  unfold fetch_outcome.
  destruct (rejected env1 p) eqn:E1; destruct (rejected env2 p) eqn:E2;
    try discriminate; intros H.
  - now rewrite (rejected_no_page _ _ E1), (rejected_no_page _ _ E2).
  - injection H as H; auto.
Qed.

Lemma body_result_agree (env1 env2 : Env) (s : RunState) :
  page_result env1 (page s) = page_result env2 (page s) ->
  body_result env1 s = body_result env2 s.
Proof.
  intros H; unfold body_result; now rewrite H.
Qed.

Lemma body_requests_page (env : Env) (s : RunState) :
  In (Get (page_url (page s))) (body_events env s).
Proof.
  unfold body_events, fetch_events; simpl; auto.
Qed.

Lemma run_agree (env1 env2 : Env) (fuel : nat) :
  forall (s s' : RunState) (evs : list event),
    run fuel env1 s = Some (Return s', evs) ->
    (forall p, In (Get (page_url p)) evs ->
               fetch_outcome env1 p = fetch_outcome env2 p) ->
    exists evs2, run fuel env2 s = Some (Return s', evs2).
Proof.
  induction fuel as [|fuel IH]; intros s s' evs Hrun Hag; [discriminate|].
  rewrite run_S in Hrun.
  destruct (rejected env1 (page s)) eqn:Hn1; [discriminate|].
  pose proof (body_requests_page env1 s) as Hin.
  remember (body_events env1 s) as here eqn:Ehere.
  assert (Hhere : In (Get (page_url (page s))) evs).
  { destruct (body_result env1 s) as [[|] s1].
    - injection Hrun as _ <-; exact Hin.
    - destruct (run fuel env1 s1) as [[o evs1]|]; [|discriminate].
      injection Hrun as _ <-; apply in_or_app; left; exact Hin. }
  destruct (fetch_outcome_agree _ _ _ (Hag _ Hhere)) as [Hn2 Hp].
  rewrite Hn1 in Hn2; symmetry in Hn2.
  rewrite (run_S_ok _ _ _ Hn2), <- (body_result_agree env1 env2 s Hp).
  destruct (body_result env1 s) as [[|] s1].
  - injection Hrun as <- _; eauto.
  - destruct (run fuel env1 s1) as [[o evs1]|] eqn:Hrest; [|discriminate].
    injection Hrun as -> <-.
    destruct (IH s1 s' evs1 Hrest) as [evs2 ->]; [|eauto].
    intros p Hp1; apply Hag, in_or_app; right; exact Hp1.
Qed.

Lemma save_outcome (env : Env) (bs : list Business) (filename : str)
  (w : World) :
  exists w',
    save_to_csv env bs filename w
    = Some (match bs with
            | [] => Return tt
            | _ :: _ =>
                if can_open env filename then Return tt else Raise OSError
            end, w') /\
    forall f,
      files w' f
      = match bs with
        | [] => files w f
        | _ :: _ =>
            if can_open env filename && str_eqb f filename
            then Some (fieldnames :: map row_of bs)
            else files w f
        end.
Proof.
  destruct bs as [|b rest]; [eexists; split; reflexivity|].
  destruct (can_open env filename) eqn:Hopen.
  - destruct (save_to_csv_opened env b rest filename w Hopen)
      as (w' & Hsave & _ & Hfile & Hother).
    exists w'; split; [exact Hsave|]; intros f; simpl.
    destruct (str_eqb f filename) eqn:E.
    + apply str_eqb_eq in E; subst; exact Hfile.
    + apply Hother; intros ->; rewrite str_eqb_refl in E; discriminate.
  - rewrite (save_to_csv_refused env b rest filename w Hopen).
    eexists; split; reflexivity.
Qed.

(** C10: two runs that receive the same page-fetch results, the same
    document or the same absence signal for every page the first run
    requests, accumulate the same listings, whatever else differs between
    the two environments (a 404 in one and a dead connection in the other
    both give the absence signal).  If moreover the output file opens in
    both or in neither, the writer ends the same way in both and leaves the
    same rows in every file. *)
Theorem scrape_deterministic (env1 env2 : Env) (fuel : nat) (w : World)
  (evs : list event) (bs : list Business)
  (Hrun : scrape_all_pages fuel env1 w = Some (Return bs, add_events w evs))
  (Hfetch : forall p, In (Get (page_url p)) evs ->
              fetch_outcome env1 p = fetch_outcome env2 p)
  (Hopen : can_open env1 default_filename = can_open env2 default_filename) :
  exists w2,
    scrape_all_pages fuel env2 w = Some (Return bs, w2) /\
    forall out w1',
      save_to_csv env1 bs default_filename (add_events w evs)
      = Some (out, w1') ->
      exists w2',
        save_to_csv env2 bs default_filename w2 = Some (out, w2') /\
        forall f, files w2' f = files w1' f.
Proof.
  rewrite scrape_all_pages_run in Hrun.
  destruct (run fuel env1 initial_state) as [[[s'|e] evs1]|] eqn:Hr;
    try discriminate.
  injection Hrun as <- Hevs; apply app_inv_head in Hevs; subst evs1.
  destruct (run_agree env1 env2 fuel _ _ _ Hr) as [evs2 Hr2].
  { exact Hfetch. }
  exists (add_events w evs2); split.
  { rewrite scrape_all_pages_run, Hr2; reflexivity. }
  intros out w1' Hsave.
  destruct (save_outcome env1 (businesses s') default_filename
              (add_events w evs)) as (v1 & Hs1 & Hf1).
  destruct (save_outcome env2 (businesses s') default_filename
              (add_events w evs2)) as (v2 & Hs2 & Hf2).
  rewrite Hs1 in Hsave; injection Hsave as <- <-.
  exists v2; split; [rewrite Hs2, Hopen; reflexivity|].
  intros f; rewrite Hf1, Hf2, Hopen; reflexivity.
Qed.

Lemma scrape_deterministic_witness :
  exists w2,
    scrape_all_pages 2 env_then_down empty_world
    = Some (Return [mkBusiness (py "Bar Uno") (py "Calle Falsa 123")], w2) /\
    forall out w1',
      save_to_csv env_then_404
        [mkBusiness (py "Bar Uno") (py "Calle Falsa 123")]
        default_filename then_404_world = Some (out, w1') ->
      exists w2',
        save_to_csv env_then_down
          [mkBusiness (py "Bar Uno") (py "Calle Falsa 123")]
          default_filename w2 = Some (out, w2') /\
        forall f, files w2' f = files w1' f.
Proof.
  refine (scrape_deterministic env_then_404 env_then_down 2 empty_world
            (events then_404_world)
            [mkBusiness (py "Bar Uno") (py "Calle Falsa 123")]
            eq_refl _ eq_refl).
  intros p Hin; cbn [then_404_world events In] in Hin.
  repeat (destruct Hin as [Hin|Hin];
          [try discriminate Hin; injection Hin as Hurl;
           unfold fetch_outcome, rejected, page_result;
           rewrite <- Hurl; reflexivity|]).
  destruct Hin.
Defined.

(** ** The top-level run *)

Lemma preview_run (bs : list Business) :
  forall (i : Z) (w : World), exists w', preview i bs w = Some (Return tt, w').
Proof.
  induction bs as [|b rest IH]; intros i w; simpl; [now exists w|].
  unfold bind, print, emit; apply IH.
Qed.


Lemma run_raises_rejected (env : Env) (fuel : nat) :
  forall s e evs,
    run fuel env s = Some (Raise e, evs) -> e = ParserRejectedMarkup.
Proof.
  induction fuel as [|fuel IH]; intros s e evs H; [discriminate|].
  rewrite run_S in H.
  destruct (rejected env (page s)); [now injection H as <- _|].
  destruct (body_result env s) as [[|] s1]; [discriminate|].
  destruct (run fuel env s1) as [[o evs1]|] eqn:Hr; [|discriminate].
  injection H as -> _; exact (IH _ _ _ Hr).
Qed.

Lemma scrape_raises_rejected (fuel : nat) (env : Env) (w : World) (e : exn)
  (w' : World) :
  scrape_all_pages fuel env w = Some (Raise e, w') ->
  e = ParserRejectedMarkup.
Proof.
  rewrite scrape_all_pages_run.
  destruct (run fuel env initial_state) as [[[s'|e'] evs]|] eqn:Hr;
    try discriminate.
  intros H; injection H as <- _; exact (run_raises_rejected _ _ _ _ _ Hr).
Qed.

Lemma main_run (fuel : nat) (env : Env) (w : World) :
  main fuel env w
  = match scrape_all_pages fuel env (add_events w [Print Starting]) with
    | None => None
    | Some (Raise e, w1) => Some (Raise e, w1)
    | Some (Return bs, w1) =>
        match save_to_csv env bs default_filename w1 with
        | None => None
        | Some (Raise e, w2) => Some (Raise e, w2)
        | Some (Return _, w2) =>
            match bs with
            | [] =>
                Some (Return tt,
                      add_events w2 [Print (TotalScraped (Z.of_nat (List.length bs)))])
            | _ :: _ =>
                preview 1 (firstn 5 bs)
                  (add_events w2
                     [Print (TotalScraped (Z.of_nat (List.length bs)));
                      Print FirstFive])
            end
        end
    end.
Proof.
  unfold main, bind at 1, print at 1, emit.
  change (mkWorld (events w ++ [Print Starting]) (files w))
    with (add_events w [Print Starting]).
  unfold bind at 1.
  destruct (scrape_all_pages fuel env (add_events w [Print Starting]))
    as [[[bs|e] w1]|]; try reflexivity.
  unfold bind at 1.
  destruct (save_to_csv env bs default_filename w1) as [[[[]|e] w2]|];
    try reflexivity.
  destruct bs as [|b rest]; unfold bind, print, emit, ret; simpl;
    unfold add_events; simpl; [reflexivity|].
  now rewrite <- app_assoc.
Qed.

(** C9, as stated, fails: nothing in [save_to_csv] or [main] handles the
    [OSError] of [open], so with a listing to save and a file that cannot
    be opened the top-level run ends in that exception. *)
Lemma main_raises_counterexample :
  main 2 env_refused empty_world = Some (Raise OSError, refused_world).
Proof. vm_compute. reflexivity. Qed.

(** The parser's exception is not a [RequestException] either, and goes
    through the handler untouched. *)
Example main_raises_rejected :
  exists w',
    main 1 env_rejected empty_world = Some (Raise ParserRejectedMarkup, w').
Proof. eexists; vm_compute; reflexivity. Qed.

(** C9, amended: no [RequestException] leaves the top-level run.  The
    fetcher never ends in one, and neither do the scrape and [main]: a
    transport failure, a 404 or another 4xx or 5xx becomes the absence
    signal, on which the loop breaks with its state as it stood; and a
    listing that cannot be extracted is passed over without an exception
    and without stopping the loop over the page's listings.  Exceptions of
    other kinds have no handler anywhere and do leave the run. *)
Theorem request_errors_absorbed (fuel : nat) (env : Env) (w : World) :
  (forall p w0 w',
     get_page_content env p w0 <> Some (Raise RequestException, w')) /\
  (forall w', scrape_all_pages fuel env w <> Some (Raise RequestException, w')) /\
  (forall w', main fuel env w <> Some (Raise RequestException, w')) /\
  (forall s w0,
     absent (requests_get env (page_url (page s))) ->
     loop_body env s w0
     = Some (Return (Break, s),
             add_events w0 (fetch_events env (page s) ++
                            [Print (NoContentFound (page s))]))) /\
  (forall article rest acc w0,
     extract_business_from_article (self article) = None ->
     for_articles (article :: rest) acc w0 = for_articles rest acc w0).
Proof.
  split.
  { intros p w0 w'; rewrite get_page_content_run; unfold fetch_outcome.
    destruct (rejected env p); discriminate. }
  split.
  { intros w' H; apply scrape_raises_rejected in H; discriminate. }
  split.
  { intros w'; rewrite main_run.
    destruct (scrape_all_pages fuel env (add_events w [Print Starting]))
      as [[[bs|e] w1]|] eqn:Hs; [| |discriminate].
    - destruct (save_outcome env bs default_filename w1) as (w2 & -> & _).
      destruct bs as [|b rest]; [discriminate|].
      destruct (can_open env default_filename); [|discriminate].
      match goal with
      | |- context [preview ?i ?l ?w0] =>
          destruct (preview_run l i w0) as (w3 & ->)
      end; discriminate.
    - apply scrape_raises_rejected in Hs; subst; discriminate. }
  split.
  { intros s w0 Ha; apply page_result_absent in Ha as [Hnone Hn].
    rewrite loop_body_run; unfold body_result, body_events.
    rewrite Hn, Hnone; reflexivity. }
  intros article rest acc w0 H; simpl; now rewrite H.
Qed.

(** * Further properties of the code *)

(** ** Trimming *)

Lemma lstrip_sub (s : str) (c : char) : In c (lstrip s) -> In c s.
Proof.
  induction s as [|a s IH]; simpl; [auto|].
  destruct (isspace a); [intros H; right; auto|auto].
Qed.

Lemma strip_sub (s : str) (c : char) : In c (strip s) -> In c s.
Proof.
  unfold strip, rstrip; intros H.
  apply lstrip_sub, in_rev, lstrip_sub, in_rev; exact H.
Qed.

Lemma strip_trimmed (s : str) : trimmed (strip s).
Proof.
  split; intros c r H.
  - destruct (strip_head s) as (c' & r' & H' & Hc); [now rewrite H|].
    rewrite H in H'; injection H' as -> _; exact Hc.
  - unfold strip, rstrip in H.
    apply (f_equal (@rev char)) in H.
    rewrite rev_involutive, rev_unit in H.
    exact (lstrip_head _ _ _ H).
Qed.

Lemma trimmed_nil : trimmed [].
Proof.
  split; intros c r H; [discriminate|].
  destruct r; discriminate.
Qed.

Lemma hd_split_no_sep (sep : char) (s : str) :
  ~ In sep (hd [] (split sep s)).
Proof.
  induction s as [|c r IH]; [simpl; tauto|].
  destruct (N.eqb_spec c sep) as [->|Hne].
  - simpl; rewrite N.eqb_refl; simpl; tauto.
  - rewrite split_hd_cons by now apply N.eqb_neq.
    intros [H|H]; [congruence|contradiction].
Qed.

Lemma address_loop_shape (ps : list element) :
  address_loop ps = [] \/
  exists t, address_loop ps = strip (hd [] (split newline t)).
Proof.
  induction ps as [|p rest IH]; [now left|]; simpl.
  destruct (in_expected_div p); [|exact IH].
  destruct (truthy (strip (text (self p)))); [|exact IH].
  destruct (truthy (strip (hd [] (split newline (strip (text (self p)))))));
    [right; eauto|exact IH].
Qed.

(** X1: a listing that comes out of the extractor has a name that is not
    empty and carries no white space at either end. *)
Theorem extracted_name_trimmed (article : node) (b : Business)
  (Hb : extract_business_from_article article = Some b) :
  Name b <> [] /\ trimmed (Name b).
Proof.
  unfold extract_business_from_article in Hb.
  destruct (find heading_tags article) as [h|]; [|discriminate].
  destruct (truthy (business_name_of h)) eqn:Ht; [|discriminate].
  injection Hb as <-; simpl; split.
  - intros E; rewrite E in Ht; discriminate.
  - unfold business_name_of.
    destruct (find link_tag (self h)); apply strip_trimmed.
Qed.

Lemma extracted_name_trimmed_witness :
  py "Bar Uno" <> [] /\ trimmed (py "Bar Uno").
Proof.
  exact (extracted_name_trimmed linked_article
           (mkBusiness (py "Bar Uno") (py "Calle Falsa 123")) eq_refl).
Defined.

(** X2: the address of an extracted listing is a single line, with no line
    break in it, and carries no white space at either end. *)
Theorem extracted_address_one_line (article : node) (b : Business)
  (Hb : extract_business_from_article article = Some b) :
  ~ In newline (Address b) /\ trimmed (Address b).
Proof.
  unfold extract_business_from_article in Hb.
  destruct (find heading_tags article) as [h|]; [|discriminate].
  destruct (negb (truthy (business_name_of h))); [discriminate|].
  injection Hb as <-; simpl.
  destruct (address_loop_shape (find_all paragraph_tag article))
    as [->|[t ->]].
  - split; [simpl; tauto|apply trimmed_nil].
  - split; [|apply strip_trimmed].
    intros H; apply strip_sub in H; exact (hd_split_no_sep _ _ H).
Qed.

Lemma extracted_address_one_line_witness :
  ~ In newline (py "Calle Falsa 123") /\ trimmed (py "Calle Falsa 123").
Proof.
  exact (extracted_address_one_line linked_article
           (mkBusiness (py "Bar Uno") (py "Calle Falsa 123")) eq_refl).
Defined.

(** ** The fetcher *)

Lemma status_reaches_parser (r : Response) :
  (status_code r =? 404) = false /\ http_error r = false <->
  status_code r < 400 \/ 600 <= status_code r.
Proof.
  unfold http_error; rewrite Z.eqb_neq, andb_false_iff, Z.leb_gt, Z.ltb_ge.
  lia.
Qed.

Lemma fetch_outcome_cases (env : Env) (p : Z) :
  fetch_outcome env p
  = match requests_get env (page_url p) with
    | None => Return None
    | Some r =>
        if (status_code r =? 404) || http_error r then Return None
        else match content r with
             | Markup soup => Return (Some soup)
             | RejectedMarkup => Raise ParserRejectedMarkup
             end
    end.
Proof.
  unfold fetch_outcome, rejected, page_result.
  destruct (requests_get env (page_url p)) as [r|]; [|reflexivity].
  destruct (status_code r =? 404); [reflexivity|].
  destruct (http_error r); [reflexivity|].
  now destruct (content r).
Qed.

(** X3: the fetcher hands back a document exactly when the request got an
    answer whose status is neither 4xx nor 5xx and whose body the parser
    accepts, and the document is what the parser made of that body; any
    such status, a 3xx or a 204 for instance, is read as a page.  With
    such a status and a body the parser rejects, the fetcher ends in the
    parser's exception, which its handler does not catch. *)
Theorem fetch_document_iff (env : Env) (p : Z) (w : World) (soup : node) :
  ((exists w', get_page_content env p w = Some (Return (Some soup), w')) <->
   (exists response,
      requests_get env (page_url p) = Some response /\
      (status_code response < 400 \/ 600 <= status_code response) /\
      content response = Markup soup)) /\
  ((exists e w', get_page_content env p w = Some (Raise e, w')) <->
   (exists response,
      requests_get env (page_url p) = Some response /\
      (status_code response < 400 \/ 600 <= status_code response) /\
      content response = RejectedMarkup)).
Proof.
  rewrite get_page_content_run, fetch_outcome_cases.
  destruct (requests_get env (page_url p)) as [r|].
  2:{ split; split; try (intros (r & Hr & _); discriminate).
      - intros [w' H]; discriminate.
      - intros (e & w' & H); discriminate. }
  pose proof (status_reaches_parser r) as Hs.
  destruct ((status_code r =? 404) || http_error r) eqn:E.
  - assert (Hno : ~ (status_code r < 400 \/ 600 <= status_code r)).
    { intros Hok; apply Hs in Hok as [H1 H2].
      rewrite H1, H2 in E; discriminate. }
    split; split.
    + intros [w' H]; discriminate.
    + intros (r' & Hr & Hok & _); injection Hr as <-; contradiction.
    + intros (e & w' & H); discriminate.
    + intros (r' & Hr & Hok & _); injection Hr as <-; contradiction.
  - apply orb_false_iff in E; apply Hs in E.
    destruct (content r) as [soup'|] eqn:Hc; split; split.
    + intros [w' H]; injection H as <-; exists r; auto.
    + intros (r' & Hr & _ & Hc'); injection Hr as <-.
      rewrite Hc in Hc'; injection Hc' as <-; eauto.
    + intros (e & w' & H); discriminate.
    + intros (r' & Hr & _ & Hc'); injection Hr as <-.
      rewrite Hc in Hc'; discriminate.
    + intros [w' H]; discriminate.
    + intros (r' & Hr & _ & Hc'); injection Hr as <-.
      rewrite Hc in Hc'; discriminate.
    + intros _; exists r; auto.
    + intros _; eauto.
Qed.

(** X4: the fetcher prints its error line exactly when the request failed in
    transport or the status is a 4xx or 5xx other than 404; a 404 is taken
    in silence. *)
Theorem fetch_error_logged_iff (env : Env) (p : Z) (w : World) :
  exists evs,
    get_page_content env p w
    = Some (fetch_outcome env p, add_events w evs) /\
    (In (Print (ErrorFetching p)) evs <->
     requests_get env (page_url p) = None \/
     exists response,
       requests_get env (page_url p) = Some response /\
       400 <= status_code response < 600 /\
       status_code response <> 404).
Proof.
  exists (fetch_events env p); split; [apply get_page_content_run|].
  unfold fetch_events, http_error.
  destruct (requests_get env (page_url p)) as [r|]; [|simpl; split; auto].
  destruct (Z.eqb_spec (status_code r) 404) as [E|E].
  - simpl; split.
    + intros [Hin|[Hin|[]]]; discriminate.
    + intros [Hn|(r' & Hr & _ & Hne)]; [discriminate|].
      injection Hr as <-; contradiction.
  - destruct ((400 <=? status_code r) && (status_code r <? 600)) eqn:E2;
      simpl; split.
    + intros _; right; exists r; split; [reflexivity|].
      apply andb_true_iff in E2 as [Hlo Hhi].
      apply Z.leb_le in Hlo; apply Z.ltb_lt in Hhi; lia.
    + intros _; auto.
    + intros [Hin|[Hin|[]]]; discriminate.
    + intros [Hn|(r' & Hr & Hs & _)]; [discriminate|].
      injection Hr as <-.
      apply andb_false_iff in E2 as [E2|E2];
        [apply Z.leb_gt in E2|apply Z.ltb_ge in E2]; lia.
Qed.

(** ** The loop, turn by turn *)

(** Induction along a finished run. *)
Lemma run_induction (env : Env) (P : RunState -> RunState -> list event -> Prop)
  (Hbreak : forall s s',
      rejected env (page s) = false ->
      body_result env s = (Break, s') -> P s s' (body_events env s))
  (Hnext : forall s s1 s' evs,
      rejected env (page s) = false ->
      body_result env s = (Next, s1) -> P s1 s' evs ->
      P s s' (body_events env s ++ evs)) :
  forall fuel s s' evs, run fuel env s = Some (Return s', evs) -> P s s' evs.
Proof.
  induction fuel as [|fuel IH]; intros s s' evs Hrun; [discriminate|].
  rewrite run_S in Hrun.
  destruct (rejected env (page s)) eqn:Hn; [discriminate|].
  destruct (body_result env s) as [[|] s1] eqn:Hb.
  - injection Hrun as <- <-; now apply Hbreak.
  - destruct (run fuel env s1) as [[o evs2]|] eqn:Hrest; [|discriminate].
    injection Hrun as -> <-; apply Hnext with s1; auto.
Qed.

(** What one turn does to the state. *)
Lemma body_step (env : Env) (s : RunState) (f : flow) (s' : RunState) :
  body_result env s = (f, s') ->
  businesses s' = businesses s ++ page_listings env (page s) /\
  match f with
  | Break => page s' = page s
  | Next => page s' = page s + 1
  end.
Proof.
  unfold body_result, page_listings.
  destruct (page_result env (page s)) as [soup|].
  - destruct (find_all article_tag soup) as [|a rest].
    + destruct (empty_page_count s + 1 >=? max_empty_pages);
        intros H; injection H as <- <-; simpl; now rewrite app_nil_r.
    + intros H; injection H as <- <-; simpl; auto.
  - intros H; injection H as <- <-; now rewrite app_nil_r.
Qed.

Lemma network_app (a b : list event) :
  network (a ++ b) = network a ++ network b.
Proof.
  induction a as [|e a IH]; [reflexivity|].
  destruct e; simpl; now rewrite IH.
Qed.

Lemma network_fetch (env : Env) (p : Z) :
  network (fetch_events env p) = [Get (page_url p)].
Proof.
  unfold fetch_events; simpl.
  destruct (requests_get env (page_url p)) as [r|]; [|reflexivity].
  destruct (status_code r =? 404); [reflexivity|].
  now destruct (http_error r).
Qed.

Lemma network_found (articles : list element) :
  network (found_events articles) = [].
Proof.
  unfold found_events; induction (extracted articles); simpl; auto.
Qed.

Lemma network_body (env : Env) (s : RunState) (f : flow) (s' : RunState) :
  body_result env s = (f, s') ->
  network (body_events env s)
  = Get (page_url (page s)) ::
    match f with Break => [] | Next => [Sleep 2] end.
Proof.
  unfold body_result, body_events; rewrite network_app, network_fetch.
  destruct (rejected env (page s)) eqn:Hn.
  { rewrite (rejected_no_page _ _ Hn); intros H; injection H as <- _.
    reflexivity. }
  destruct (page_result env (page s)) as [soup|].
  - destruct (find_all article_tag soup) as [|a rest].
    + destruct (empty_page_count s + 1 >=? max_empty_pages);
        intros H; injection H as <- _; reflexivity.
    + intros H; injection H as <- _.
      rewrite network_app, network_found; reflexivity.
  - intros H; injection H as <- _; reflexivity.
Qed.

Lemma pages_from_last (p : Z) (n : nat) :
  pages_from p (S n) = pages_from p n ++ [p + Z.of_nat n].
Proof.
  revert p; induction n as [|n IH]; intros p.
  - simpl; now rewrite Z.add_0_r.
  - change (pages_from p (S (S n))) with (p :: pages_from (p + 1) (S n)).
    rewrite IH; simpl; do 3 f_equal; lia.
Qed.

(** A finished run, in one statement: how far it went, what it requested
    and when it paused, and what it accumulated. *)
Lemma run_shape (env : Env) (fuel : nat) (s s' : RunState) (evs : list event) :
  run fuel env s = Some (Return s', evs) ->
  exists n,
    page s' = page s + Z.of_nat n /\
    network evs = schedule (pages_from (page s) (S n)) /\
    businesses s'
    = businesses s ++ flat_map (page_listings env) (pages_from (page s) (S n)).
Proof.
  revert fuel s s' evs; apply run_induction.
  - intros s s' _ Hb; exists O.
    destruct (body_step env s _ _ Hb) as [Hbs Hp].
    rewrite (network_body env s _ _ Hb), Hbs, Hp; simpl.
    now rewrite Z.add_0_r, app_nil_r.
  - intros s s1 s' evs _ Hb (n & Hp & Hn & Hbs); exists (S n).
    destruct (body_step env s _ _ Hb) as [Hbs1 Hp1].
    rewrite network_app, (network_body env s _ _ Hb), Hn, Hbs, Hbs1, Hp, Hp1.
    split; [lia|]; split.
    + reflexivity.
    + change (pages_from (page s) (S (S n)))
        with (page s :: pages_from (page s + 1) (S n)).
      simpl flat_map; now rewrite <- app_assoc.
Qed.

Lemma extract_well_formed (article : node) (b : Business) :
  extract_business_from_article article = Some b -> well_formed b.
Proof.
  unfold extract_business_from_article, well_formed.
  destruct (find heading_tags article) as [h|]; [|discriminate].
  destruct (truthy (business_name_of h)) eqn:Ht; [|discriminate].
  intros H; injection H as <-; simpl.
  split; [intros E; rewrite E in Ht; discriminate|].
  split.
  { unfold business_name_of.
    destruct (find link_tag (self h)); apply strip_trimmed. }
  destruct (address_loop_shape (find_all paragraph_tag article))
    as [->|[t ->]].
  - split; [simpl; tauto|apply trimmed_nil].
  - split; [|apply strip_trimmed].
    intros H; apply strip_sub in H; exact (hd_split_no_sep _ _ H).
Qed.

Lemma extracted_well_formed (articles : list element) :
  Forall well_formed (extracted articles).
Proof.
  unfold extracted; induction articles as [|a rest IH]; simpl; [constructor|].
  apply Forall_app; split; [|exact IH].
  destruct (extract_business_from_article (self a)) as [b|] eqn:E;
    [|constructor].
  constructor; [exact (extract_well_formed _ _ E)|constructor].
Qed.

Lemma page_listings_well_formed (env : Env) (p : Z) :
  Forall well_formed (page_listings env p).
Proof.
  unfold page_listings; destruct (page_result env p);
    [apply extracted_well_formed|constructor].
Qed.

Lemma loop_body_next (env : Env) (s s' : RunState) (w w' : World) :
  loop_body env s w = Some (Return (Next, s'), w') ->
  body_result env s = (Next, s').
Proof.
  rewrite loop_body_run.
  destruct (rejected env (page s)); [discriminate|].
  intros H; now injection H as H _.
Qed.

(** X5: at the start of every turn of the loop the counter of empty pages
    is 0 or 1, the page number is at least 1, and every listing accumulated
    so far has a non-empty trimmed name and a one-line trimmed address. *)
Theorem reachable_invariant (env : Env) (s : RunState)
  (Hreach : reachable env s) :
  (empty_page_count s = 0 \/ empty_page_count s = 1) /\
  1 <= page s /\
  Forall well_formed (businesses s).
Proof.
  induction Hreach as [|s s' w w' Hreach (Hc & Hp & Hb) Hstep].
  - simpl; repeat split; auto; lia.
  - apply loop_body_next in Hstep.
    destruct (body_step env s _ _ Hstep) as [Hbs Hpage].
    split; [apply (body_next_count env s); [lia|exact Hstep]|].
    split; [lia|].
    rewrite Hbs; apply Forall_app; split;
      [exact Hb|apply page_listings_well_formed].
Qed.

Lemma reachable_invariant_witness :
  (0 = 0 \/ 0 = 1) /\ 1 <= 2 /\
  Forall well_formed [mkBusiness (py "Bar Uno") (py "Calle Falsa 123")].
Proof.
  exact (reachable_invariant env_site
           (mkRunState 2 [mkBusiness (py "Bar Uno") (py "Calle Falsa 123")] 0)
           (reach_next env_site initial_state _ empty_world _
              (reach_initial _) eq_refl)).
Defined.

Lemma scrape_finished (fuel : nat) (env : Env) (w w' : World)
  (bs : list Business) :
  scrape_all_pages fuel env w = Some (Return bs, w') ->
  exists s' evs,
    run fuel env initial_state = Some (Return s', evs) /\
    bs = businesses s' /\ w' = add_events w evs.
Proof.
  rewrite scrape_all_pages_run.
  destruct (run fuel env initial_state) as [[[s'|e] evs]|]; try discriminate.
  intros H; injection H as <- <-; eauto.
Qed.

(** X6: a finished scrape has asked for pages 1, 2, 3, ... in that order,
    each once and none skipped, and has paused two seconds between every
    request and the next; it makes no other request and no other pause. *)
Theorem requests_in_order (fuel : nat) (env : Env) (w w' : World)
  (bs : list Business)
  (Hrun : scrape_all_pages fuel env w = Some (Return bs, w')) :
  exists evs n,
    w' = add_events w evs /\
    network evs = schedule (pages_from 1 (S n)).
Proof.
  destruct (scrape_finished _ _ _ _ _ Hrun) as (s' & evs & Hr & _ & Hw).
  destruct (run_shape _ _ _ _ _ Hr) as (n & _ & Hn & _).
  exists evs, n; auto.
Qed.



(** X8: every listing a finished scrape returns has a non-empty name without
    white space at either end and an address that is one line without white
    space at either end. *)
Theorem scrape_well_formed (fuel : nat) (env : Env) (w w' : World)
  (bs : list Business)
  (Hrun : scrape_all_pages fuel env w = Some (Return bs, w')) :
  Forall well_formed bs.
Proof.
  destruct (scrape_finished _ _ _ _ _ Hrun) as (s' & evs & Hr & -> & _).
  destruct (run_shape _ _ _ _ _ Hr) as (n & _ & _ & ->); simpl.
  apply Forall_app; split; [apply page_listings_well_formed|].
  apply Forall_flat_map, Forall_forall; intros p _.
  apply page_listings_well_formed.
Qed.

Lemma requests_in_order_witness :
  exists evs n,
    site_world = add_events empty_world evs /\
    network evs = schedule (pages_from 1 (S n)).
Proof.
  exact (requests_in_order 5 env_site empty_world site_world site_listings
           eq_refl).
Defined.


Lemma scrape_well_formed_witness : Forall well_formed site_listings.
Proof.
  exact (scrape_well_formed 5 env_site empty_world site_world site_listings
           eq_refl).
Defined.

(** ** Termination *)

Lemma run_more_fuel (env : Env) (fuel : nat) :
  forall s r, run fuel env s = Some r -> run (S fuel) env s = Some r.
Proof.
  induction fuel as [|fuel IH]; intros s r H; [discriminate|].
  rewrite run_S in H; rewrite run_S.
  destruct (rejected env (page s)); [exact H|].
  destruct (body_result env s) as [[|] s1]; [exact H|].
  destruct (run fuel env s1) as [[o evs2]|] eqn:Hr; [|discriminate].
  now rewrite (IH _ _ Hr).
Qed.

Lemma run_fuel_le (env : Env) (fuel fuel' : nat) (s : RunState)
  (r : outcome RunState * list event) :
  (fuel <= fuel')%nat -> run fuel env s = Some r -> run fuel' env s = Some r.
Proof.
  induction 1 as [|m _ IH]; [auto|].
  intros H; apply run_more_fuel; auto.
Qed.

Lemma run_reaches_absent (env : Env) (n : nat) :
  forall s,
    absent (requests_get env (page_url (page s + Z.of_nat n))) ->
    exists r, run (S n) env s = Some r.
Proof.
  induction n as [|n IH]; intros s Ha; rewrite run_S.
  - rewrite Z.add_0_r in Ha; apply page_result_absent in Ha as [Ha Hn].
    unfold body_result; rewrite Hn, Ha; eauto.
  - destruct (rejected env (page s)); [eauto|].
    destruct (body_result env s) as [[|] s1] eqn:Hb; [eauto|].
    destruct (body_step env s _ _ Hb) as [_ Hp].
    destruct (IH s1) as [[o evs2] Hr].
    + rewrite Hp; replace (page s + 1 + Z.of_nat n)
        with (page s + Z.of_nat (S n)) by lia; exact Ha.
    + rewrite Hr; eauto.
Qed.

Lemma rejected_body (env : Env) (s : RunState) :
  rejected env (page s) = true -> body_result env s = (Break, s).
Proof.
  intros H; unfold body_result; now rewrite (rejected_no_page _ _ H).
Qed.

(** The requests and pauses of a run that ends, however it ends. *)
Lemma run_network (env : Env) (fuel : nat) :
  forall s o evs,
    run fuel env s = Some (o, evs) ->
    exists n,
      (n < fuel)%nat /\
      network evs = schedule (pages_from (page s) (S n)) /\
      match o with
      | Return s' => page s' = page s + Z.of_nat n
      | Raise e =>
          e = ParserRejectedMarkup /\
          rejected env (page s + Z.of_nat n) = true
      end.
Proof.
  induction fuel as [|fuel IH]; intros s o evs H; [discriminate|].
  rewrite run_S in H.
  remember (body_events env s) as here eqn:Ehere.
  destruct (rejected env (page s)) eqn:Hn.
  - injection H as Eo Eevs; subst o evs here; exists O.
    rewrite (network_body env s _ _ (rejected_body _ _ Hn)), Z.add_0_r.
    repeat split; auto; lia.
  - destruct (body_result env s) as [[|] s1] eqn:Hb.
    + injection H as Eo Eevs; subst o evs here; exists O.
      rewrite (network_body env s _ _ Hb).
      destruct (body_step env s _ _ Hb) as [_ Hp].
      repeat split; auto; lia.
    + destruct (run fuel env s1) as [[o1 evs1]|] eqn:Hr; [|discriminate].
      injection H as Eo Eevs; subst o evs here.
      destruct (IH _ _ _ Hr) as (n & Hlt & Hnet & Ho).
      destruct (body_step env s _ _ Hb) as [_ Hp].
      exists (S n); split; [lia|]; split.
      * rewrite network_app, (network_body env s _ _ Hb), Hnet, Hp.
        reflexivity.
      * rewrite Hp in Ho.
        replace (page s + Z.of_nat (S n)) with (page s + 1 + Z.of_nat n)
          by lia.
        exact Ho.
Qed.

(** X9: if some page [k >= 1] is absent (transport failure, 404, another
    4xx or 5xx), the scrape ends, after at most [k] turns of the loop, and
    it requests no page past [k].  It ends by returning its listings, or,
    when the parser rejects the body of the last page requested, in the
    parser's exception. *)
Theorem scrape_terminates (env : Env) (k : Z) (fuel : nat) (w : World)
  (Hk : 1 <= k)
  (Habsent : absent (requests_get env (page_url k)))
  (Hfuel : (Z.to_nat k <= fuel)%nat) :
  exists out evs n,
    scrape_all_pages fuel env w = Some (out, add_events w evs) /\
    network evs = schedule (pages_from 1 (S n)) /\
    1 + Z.of_nat n <= k /\
    ((exists bs, out = Return bs) \/
     (out = Raise ParserRejectedMarkup /\
      rejected env (1 + Z.of_nat n) = true)).
Proof.
  destruct (run_reaches_absent env (Z.to_nat k - 1) initial_state)
    as [[o evs] Hr].
  { simpl page; replace (1 + Z.of_nat (Z.to_nat k - 1)) with k by lia.
    exact Habsent. }
  replace (S (Z.to_nat k - 1)) with (Z.to_nat k) in Hr by lia.
  destruct (run_network _ _ _ _ _ Hr) as (n & Hlt & Hn & Ho).
  rewrite scrape_all_pages_run, (run_fuel_le _ _ _ _ _ Hfuel Hr).
  simpl page in *.
  destruct o as [s'|e].
  - exists (Return (businesses s')), evs, n.
    repeat split; eauto; lia.
  - destruct Ho as [-> Ho].
    exists (Raise ParserRejectedMarkup), evs, n.
    repeat split; auto; lia.
Qed.

Lemma scrape_terminates_witness :
  exists out evs n,
    scrape_all_pages 9 env_site empty_world
    = Some (out, add_events empty_world evs) /\
    network evs = schedule (pages_from 1 (S n)) /\
    1 + Z.of_nat n <= 5 /\
    ((exists bs, out = Return bs) \/
     (out = Raise ParserRejectedMarkup /\
      rejected env_site (1 + Z.of_nat n) = true)).
Proof.
  refine (scrape_terminates env_site 5 9 empty_world _ (or_introl eq_refl) _).
  - lia.
  - vm_compute; repeat constructor.
Defined.

(** ** Why a run stops *)

Lemma after_empty_next (env : Env) (s s1 : RunState) :
  after_empty env s -> body_result env s = (Next, s1) -> after_empty env s1.
Proof.
  intros Hinv; unfold body_result, max_empty_pages.
  destruct (page_result env (page s)) as [soup|] eqn:Hp; [|discriminate].
  destruct (find_all article_tag soup) as [|a rest] eqn:Ha.
  - destruct (Z.geb_spec (empty_page_count s + 1) 2) as [Hge|Hlt];
      [discriminate|].
    intros H; injection H as <-; right; simpl.
    split; [destruct Hinv as [?|[? _]]; lia|].
    replace (page s + 1 - 1) with (page s) by lia.
    exists soup; auto.
  - intros H; injection H as <-; now left.
Qed.

Lemma run_stop_reason (env : Env) (fuel : nat) (s s' : RunState)
  (evs : list event) :
  run fuel env s = Some (Return s', evs) ->
  after_empty env s ->
  absent (requests_get env (page_url (page s'))) \/
  (empty_page env (page s' - 1) /\ empty_page env (page s')).
Proof.
  revert fuel s s' evs.
  apply (run_induction env
           (fun s s' _ =>
              after_empty env s ->
              absent (requests_get env (page_url (page s'))) \/
              (empty_page env (page s' - 1) /\ empty_page env (page s')))).
  - intros s s' Hn Hb Hinv; revert Hb; unfold body_result, max_empty_pages.
    destruct (page_result env (page s)) as [soup|] eqn:Hp.
    + destruct (find_all article_tag soup) as [|a rest] eqn:Ha;
        [|discriminate].
      destruct (Z.geb_spec (empty_page_count s + 1) 2) as [Hge|Hlt];
        [|discriminate].
      intros H; injection H as <-; simpl; right.
      destruct Hinv as [Hc|[_ He]]; [lia|].
      split; [exact He|exists soup; auto].
    + intros H; injection H as <-; left.
      apply page_result_absent; auto.
  - intros s s1 s' evs _ Hb IH Hinv.
    apply IH, (after_empty_next env s); auto.
Qed.

(** X10: a scrape stops for one of two reasons only, never earlier: the
    last page it asked for was absent, or that page and the one before it
    both came back without any listing node. *)
Theorem scrape_stop_reason (fuel : nat) (env : Env) (w w' : World)
  (bs : list Business)
  (Hrun : scrape_all_pages fuel env w = Some (Return bs, w')) :
  exists evs n,
    w' = add_events w evs /\
    network evs = schedule (pages_from 1 (S n)) /\
    (absent (requests_get env (page_url (1 + Z.of_nat n))) \/
     (empty_page env (Z.of_nat n) /\ empty_page env (1 + Z.of_nat n))).
Proof.
  destruct (scrape_finished _ _ _ _ _ Hrun) as (s' & evs & Hr & _ & Hw).
  destruct (run_shape _ _ _ _ _ Hr) as (n & Hp & Hn & _).
  exists evs, n; split; [exact Hw|]; split; [exact Hn|].
  simpl page in Hp.
  destruct (run_stop_reason _ _ _ _ _ Hr) as [Hnone|[He1 He2]];
    [now left|left|right].
  - now rewrite <- Hp.
  - rewrite Hp in He1, He2.
    replace (1 + Z.of_nat n - 1) with (Z.of_nat n) in He1 by lia; auto.
Qed.

Lemma scrape_stop_reason_witness :
  exists evs n,
    site_world = add_events empty_world evs /\
    network evs = schedule (pages_from 1 (S n)) /\
    (absent (requests_get env_site (page_url (1 + Z.of_nat n))) \/
     (empty_page env_site (Z.of_nat n) /\
      empty_page env_site (1 + Z.of_nat n))).
Proof.
  exact (scrape_stop_reason 5 env_site empty_world site_world site_listings
           eq_refl).
Defined.

(** ** What a run prints and touches *)

Lemma found_lines_app (a b : list event) :
  found_lines (a ++ b) = found_lines a ++ found_lines b.
Proof.
  induction a as [|e a IH]; [reflexivity|].
  destruct e as [[]| | |]; simpl; now rewrite IH.
Qed.

Lemma found_lines_fetch (env : Env) (p : Z) :
  found_lines (fetch_events env p) = [].
Proof.
  unfold fetch_events; simpl.
  destruct (requests_get env (page_url p)) as [r|]; [|reflexivity].
  destruct (status_code r =? 404); [reflexivity|].
  now destruct (http_error r).
Qed.

Lemma found_lines_found (articles : list element) :
  found_lines (found_events articles) = map found_line (extracted articles).
Proof.
  unfold found_events; induction (extracted articles) as [|b l IH];
    simpl; [reflexivity|now rewrite IH].
Qed.

Lemma found_lines_body (env : Env) (s : RunState) :
  found_lines (body_events env s)
  = map found_line (page_listings env (page s)).
Proof.
  unfold body_events, page_listings.
  rewrite found_lines_app, found_lines_fetch.
  destruct (rejected env (page s)) eqn:Hn;
    [now rewrite (rejected_no_page _ _ Hn)|].
  destruct (page_result env (page s)) as [soup|]; [|reflexivity].
  destruct (find_all article_tag soup) as [|a rest].
  - now destruct (empty_page_count s + 1 >=? max_empty_pages).
  - rewrite found_lines_app, found_lines_found; simpl.
    now rewrite app_nil_r.
Qed.

Lemma run_found_lines (env : Env) (fuel : nat) (s s' : RunState)
  (evs : list event) :
  run fuel env s = Some (Return s', evs) ->
  exists more,
    businesses s' = businesses s ++ more /\
    found_lines evs = map found_line more.
Proof.
  revert fuel s s' evs.
  apply (run_induction env
           (fun s s' evs =>
              exists more,
                businesses s' = businesses s ++ more /\
                found_lines evs = map found_line more)).
  - intros s s' _ Hb; exists (page_listings env (page s)).
    split; [apply (body_step env s _ _ Hb)|apply found_lines_body].
  - intros s s1 s' evs _ Hb (more & Hbs & Hf).
    exists (page_listings env (page s) ++ more).
    destruct (body_step env s _ _ Hb) as [Hbs1 _].
    rewrite Hbs, Hbs1, found_lines_app, found_lines_body, Hf, map_app.
    now rewrite app_assoc.
Qed.

(** X11: the [Found] lines a finished scrape has printed are, in order, the
    listings it returns, one line each, with [No address] standing for an
    empty address. *)
Theorem found_lines_match (fuel : nat) (env : Env) (w w' : World)
  (bs : list Business)
  (Hrun : scrape_all_pages fuel env w = Some (Return bs, w')) :
  exists evs,
    w' = add_events w evs /\
    found_lines evs
    = map (fun b => (Name b,
                     if truthy (Address b) then Address b
                     else py "No address")) bs.
Proof.
  destruct (scrape_finished _ _ _ _ _ Hrun) as (s' & evs & Hr & -> & Hw).
  destruct (run_found_lines _ _ _ _ _ Hr) as (more & Hbs & Hf).
  exists evs; split; [exact Hw|].
  rewrite Hbs, Hf; reflexivity.
Qed.

Lemma found_lines_match_witness :
  exists evs,
    site_world = add_events empty_world evs /\
    found_lines evs
    = [(py "Bar Uno", py "Calle Falsa 123");
       (py "Bar Uno", py "Calle Feria 1")].
Proof.
  exact (found_lines_match 5 env_site empty_world site_world site_listings
           eq_refl).
Defined.

Lemma opened_app (a b : list event) : opened (a ++ b) = opened a ++ opened b.
Proof.
  induction a as [|e a IH]; [reflexivity|].
  destruct e; simpl; now rewrite IH.
Qed.

Lemma opened_body (env : Env) (s : RunState) : opened (body_events env s) = [].
Proof.
  unfold body_events, fetch_events, found_events; rewrite !opened_app; simpl.
  assert (H1 : opened
                 match requests_get env (page_url (page s)) with
                 | Some response =>
                     if status_code response =? 404 then []
                     else if http_error response
                          then [Print (ErrorFetching (page s))] else []
                 | None => [Print (ErrorFetching (page s))]
                 end = []).
  { destruct (requests_get env (page_url (page s))) as [r|]; [|reflexivity].
    destruct (status_code r =? 404); [reflexivity|].
    now destruct (http_error r). }
  rewrite H1; simpl.
  destruct (rejected env (page s)); [reflexivity|].
  destruct (page_result env (page s)) as [soup|]; [|reflexivity].
  destruct (find_all article_tag soup) as [|a rest].
  - now destruct (empty_page_count s + 1 >=? max_empty_pages).
  - rewrite opened_app; simpl; rewrite app_nil_r.
    match goal with |- opened (map _ ?l) = [] => induction l end; simpl; auto.
Qed.

Lemma run_opens_nothing (env : Env) (fuel : nat) :
  forall s o evs, run fuel env s = Some (o, evs) -> opened evs = [].
Proof.
  induction fuel as [|fuel IH]; intros s o evs H; [discriminate|].
  rewrite run_S in H.
  pose proof (opened_body env s) as Hb.
  remember (body_events env s) as here eqn:Ehere.
  destruct (rejected env (page s)).
  - injection H as _ <-; exact Hb.
  - destruct (body_result env s) as [[|] s1].
    + injection H as _ <-; exact Hb.
    + destruct (run fuel env s1) as [[o1 evs1]|] eqn:Hr; [|discriminate].
      injection H as _ <-.
      now rewrite opened_app, Hb, (IH _ _ _ Hr).
Qed.

(** X12: a scrape opens no file and leaves every file as it found it. *)
Theorem scrape_touches_no_file (fuel : nat) (env : Env) (w w' : World)
  (r : outcome (list Business))
  (Hrun : scrape_all_pages fuel env w = Some (r, w')) :
  files w' = files w /\
  exists evs, events w' = events w ++ evs /\ opened evs = [].
Proof.
  rewrite scrape_all_pages_run in Hrun.
  destruct (run fuel env initial_state) as [[o evs]|] eqn:Hr; [|discriminate].
  assert (Hw : w' = add_events w evs).
  { destruct o; now injection Hrun as _ <-. }
  subst w'; split; [reflexivity|].
  exists evs; split; [reflexivity|].
  exact (run_opens_nothing _ _ _ _ _ Hr).
Qed.

Lemma scrape_touches_no_file_witness :
  files site_world = files empty_world /\
  exists evs, events site_world = events empty_world ++ evs /\ opened evs = [].
Proof.
  exact (scrape_touches_no_file 5 env_site empty_world site_world
           (Return site_listings) eq_refl).
Defined.

(** ** The top-level run, when it ends well *)

Lemma preview_run_events (bs : list Business) :
  forall (i : Z) (w : World),
    preview i bs w = Some (Return tt, add_events w (preview_events i bs)).
Proof.
  induction bs as [|b rest IH]; intros i w; simpl.
  - unfold ret; now rewrite add_events_nil.
  - unfold bind, print, emit; rewrite IH.
    unfold add_events; simpl; now rewrite <- !app_assoc.
Qed.

Lemma previewed_preview (bs : list Business) :
  forall i, previewed (preview_events i bs) = enumerate i (map Name bs).
Proof.
  induction bs as [|b rest IH]; intros i; simpl; [reflexivity|].
  now rewrite IH.
Qed.

Lemma enumerate_length {A : Type} (l : list A) :
  forall i, List.length (enumerate i l) = List.length l.
Proof.
  induction l as [|x l IH]; intros i; simpl; [reflexivity|].
  now rewrite IH.
Qed.



(** X14: the preview of the top-level run names the first five listings at
    most, in order, numbered from 1 upwards without a gap. *)
Theorem preview_numbering (bs : list Business) (w : World) :
  exists evs,
    preview 1 (firstn 5 bs) w = Some (Return tt, add_events w evs) /\
    previewed evs = enumerate 1 (map Name (firstn 5 bs)) /\
    List.length (previewed evs) = Nat.min 5 (List.length bs).
Proof.
  exists (preview_events 1 (firstn 5 bs)).
  split; [apply preview_run_events|].
  rewrite previewed_preview; split; [reflexivity|].
  now rewrite enumerate_length, length_map, length_firstn.
Qed.

Example preview_of_seven :
  exists evs,
    preview 1 (firstn 5 seven_listings) empty_world
    = Some (Return tt, add_events empty_world evs) /\
    previewed evs
    = [(1, py "A"); (2, py "B"); (3, py "C"); (4, py "D"); (5, py "E")].
Proof.
  eexists; split; [apply preview_run_events|reflexivity].
Qed.

(** ** Pages whose listing nodes yield nothing *)

Lemma extracted_none (articles : list element) :
  (forall a, In a articles ->
             extract_business_from_article (self a) = None) ->
  extracted articles = [].
Proof.
  unfold extracted; induction articles as [|a rest IH]; intros H;
    [reflexivity|]; simpl.
  rewrite (H a (or_introl eq_refl)), IH; [reflexivity|].
  intros a' Ha'; apply H; now right.
Qed.

(** X15: a page that holds listing nodes counts as a page with listings even
    when none of them can be extracted: the turn adds nothing to the
    accumulated listings, prints no [Found] line, puts the counter of empty
    pages back to 0 whatever it held, and goes on to the next page. *)
Theorem unextractable_page_continues (env : Env) (s : RunState) (w : World)
  (soup : node)
  (Hpage : page_result env (page s) = Some soup)
  (Hnodes : find_all article_tag soup <> [])
  (Hfail : forall a, In a (find_all article_tag soup) ->
             extract_business_from_article (self a) = None) :
  loop_body env s w
  = Some (Return (Next, mkRunState (page s + 1) (businesses s) 0),
          add_events w (fetch_events env (page s) ++ [Sleep 2])).
Proof.
  rewrite loop_body_run; unfold body_result, body_events, found_events.
  rewrite (page_not_rejected _ _ _ Hpage), Hpage.
  destruct (find_all article_tag soup) as [|a rest] eqn:Ha;
    [contradiction|].
  rewrite (extracted_none _ Hfail); simpl; now rewrite app_nil_r.
Qed.

Lemma unextractable_page_continues_witness :
  loop_body env_site (mkRunState 2 site_listings 1) empty_world
  = Some (Return (Next, mkRunState 3 site_listings 0),
          add_events empty_world
            (fetch_events env_site 2 ++ [Sleep 2])).
Proof.
  refine (unextractable_page_continues env_site
            (mkRunState 2 site_listings 1) empty_world headless_doc
            eq_refl _ _).
  - discriminate.
  - intros a [<-|[<-|[]]]; reflexivity.
Defined.

(** ** One URL per page *)

Lemma py_inj (a b : string) : py a = py b -> a = b.
Proof.
  unfold py; intros H.
  rewrite <- (string_of_list_ascii_of_string a),
          <- (string_of_list_ascii_of_string b); f_equal.
  revert H; generalize (list_ascii_of_string a) (list_ascii_of_string b).
  induction l as [|x l IH]; intros [|y l']; simpl; try discriminate;
    [reflexivity|].
  intros H; injection H as Hx Hl; f_equal; [|now apply IH].
  rewrite <- (ascii_N_embedding x), <- (ascii_N_embedding y); now f_equal.
Qed.

Lemma to_int_not_nil (n : Z) :
  Z.to_int n <> Decimal.Pos Decimal.Nil /\
  Z.to_int n <> Decimal.Neg Decimal.Nil.
Proof.
  destruct n as [|q|q]; simpl; split; try discriminate;
    intros H; injection H as H;
    exact (DecimalPos.Unsigned.to_uint_nonnil q H).
Qed.

Lemma str_of_int_inj (a b : Z) : str_of_int a = str_of_int b -> a = b.
Proof.
  unfold str_of_int; intros H; apply py_inj in H.
  apply DecimalZ.to_int_inj.
  destruct (to_int_not_nil a) as [Ha1 Ha2].
  destruct (to_int_not_nil b) as [Hb1 Hb2].
  pose proof (NilZero.isi _ Ha1 Ha2) as Ea.
  pose proof (NilZero.isi _ Hb1 Hb2) as Eb.
  rewrite H in Ea; rewrite Ea in Eb; now injection Eb.
Qed.

Lemma page_url_inj (a b : Z) : page_url a = page_url b -> a = b.
Proof.
  unfold page_url.
  destruct (Z.eqb_spec a 1) as [->|Ha]; destruct (Z.eqb_spec b 1) as [->|Hb];
    [reflexivity| | |].
  - rewrite <- (app_nil_r base_url) at 1; intros H.
    apply app_inv_head in H; discriminate.
  - rewrite <- (app_nil_r base_url) at 2; intros H.
    apply app_inv_head in H; discriminate.
  - intros H; apply app_inv_head, app_inv_head, app_inv_tail in H.
    now apply str_of_int_inj.
Qed.

(** X16: two different page numbers never get the same URL, whatever the
    numbers are. *)
Theorem distinct_pages_distinct_urls (a b : Z) (Hab : a <> b) :
  page_url a <> page_url b.
Proof.
  intros H; apply Hab, page_url_inj, H.
Qed.

Lemma distinct_pages_distinct_urls_witness : page_url 1 <> page_url 10.
Proof.
  apply distinct_pages_distinct_urls; discriminate.
Defined.

Lemma requested_network (evs : list event) :
  requested (network evs) = requested evs.
Proof.
  induction evs as [|e evs IH]; [reflexivity|].
  destruct e; simpl; now rewrite ?IH.
Qed.

Lemma requested_schedule (ps : list Z) :
  requested (schedule ps) = map page_url ps.
Proof.
  induction ps as [|p rest IH]; [reflexivity|].
  destruct rest as [|q rest]; [reflexivity|].
  change (requested (schedule (p :: q :: rest)))
    with (page_url p :: requested (schedule (q :: rest))).
  now rewrite IH.
Qed.

Lemma pages_from_ge (n : nat) :
  forall p q, In q (pages_from p n) -> p <= q.
Proof.
  induction n as [|n IH]; intros p q; simpl; [tauto|].
  intros [<-|H]; [lia|]; apply IH in H; lia.
Qed.

Lemma pages_from_nodup (n : nat) : forall p, NoDup (pages_from p n).
Proof.
  induction n as [|n IH]; intros p; simpl; constructor; [|apply IH].
  intros H; apply pages_from_ge in H; lia.
Qed.

Lemma map_page_url_nodup (ps : list Z) :
  NoDup ps -> NoDup (map page_url ps).
Proof.
  induction 1 as [|p ps Hnotin _ IH]; simpl; constructor; [|exact IH].
  intros H; apply in_map_iff in H as (q & Hq & Hin).
  apply page_url_inj in Hq; now subst.
Qed.

(** X17: a finished scrape has requested no URL twice. *)
Theorem no_url_requested_twice (fuel : nat) (env : Env) (w w' : World)
  (bs : list Business)
  (Hrun : scrape_all_pages fuel env w = Some (Return bs, w')) :
  exists evs, w' = add_events w evs /\ NoDup (requested evs).
Proof.
  destruct (scrape_finished _ _ _ _ _ Hrun) as (s' & evs & Hr & _ & Hw).
  destruct (run_shape _ _ _ _ _ Hr) as (n & _ & Hn & _).
  exists evs; split; [exact Hw|].
  rewrite <- requested_network, Hn, requested_schedule.
  apply map_page_url_nodup, pages_from_nodup.
Qed.

Lemma no_url_requested_twice_witness :
  exists evs, site_world = add_events empty_world evs /\ NoDup (requested evs).
Proof.
  exact (no_url_requested_twice 5 env_site empty_world site_world
           site_listings eq_refl).
Defined.

(** ** No cap on the number of pages *)

Lemma run_goes_on (env : Env) (fuel : nat) :
  forall s,
    (forall p, page s <= p < page s + Z.of_nat fuel ->
               has_listing_nodes env p) ->
    run fuel env s = None.
Proof.
  induction fuel as [|fuel IH]; intros s Hall; [reflexivity|].
  destruct (Hall (page s)) as (soup & Hp & Hnodes); [lia|].
  rewrite (run_S_ok _ _ _ (page_not_rejected _ _ _ Hp)).
  unfold body_result; rewrite Hp.
  destruct (find_all article_tag soup) as [|a rest]; [contradiction|].
  rewrite IH; [reflexivity|].
  simpl page; intros p Hrange; apply Hall; lia.
Qed.

(** X18: the loop has no cap of its own: as long as every page from 1 to [m]
    comes back with at least one listing node, the scrape is not over after
    [m] turns. *)
Theorem scrape_goes_on (env : Env) (m : nat) (w : World)
  (Hall : forall p, 1 <= p <= Z.of_nat m -> has_listing_nodes env p) :
  scrape_all_pages m env w = None.
Proof.
  rewrite scrape_all_pages_run, run_goes_on; [reflexivity|].
  simpl page; intros p Hrange; apply Hall; lia.
Qed.

Lemma scrape_goes_on_witness :
  scrape_all_pages 7 env_endless empty_world = None.
Proof.
  apply scrape_goes_on; intros p _.
  exists (Tag (py "[document]") [] [linked_article]).
  split; [reflexivity|discriminate].
Defined.
